(** * Kata 07: the HTTP tool-invocation server and its client

    A shallow embedding of [kata-07-atlassian-mcp/mcp_server.py] (tool
    registry, upstream connectors, dispatch table, request handler) and
    of [MCPClient] from [kata-07-atlassian-mcp/solution.py].

    Python values that travel through the server are JSON-decoded values;
    they are embedded as the inductive type [value].  Code that may raise
    and that talks to the upstream service runs in a small state-and-error
    monad [M]: the state is the log of observable events (dispatch-table
    lookups, handler calls, upstream HTTP requests).  Library functions
    whose result is not determined by this repository (the JSON decoder,
    [urlparse], [int], [repr] of containers, the text of interpreter type
    errors, the network) are fields of a [runtime] record over which the
    server and the client are parameterised. *)

From Stdlib Require Import String Ascii List ZArith Lia Bool DecimalString.
Import ListNotations.
Open Scope string_scope.
Open Scope Z_scope.

Set Implicit Arguments.
Set Warnings "-register-all".

(** ** JSON-decoded Python values *)

(** [VFloat] carries the [repr] of the float, which determines it.
    A [VDict] is an association list in insertion order; lookup takes the
    first binding of a key. *)
Inductive value : Type :=
| VNone
| VBool (b : bool)
| VInt (z : Z)
| VFloat (repr : string)
| VStr (s : string)
| VList (l : list value)
| VDict (d : list (string * value)).

Definition pydict := list (string * value).

Fixpoint assoc (k : string) (d : pydict) : option value :=
  match d with
  | [] => None
  | (k', v) :: d' => if String.eqb k k' then Some v else assoc k d'
  end.

Definition has_key (k : string) (d : pydict) : bool :=
  match assoc k d with Some _ => true | None => false end.

(** [type(v).__name__] *)
Definition type_name (v : value) : string :=
  match v with
  | VNone => "NoneType"
  | VBool _ => "bool"
  | VInt _ => "int"
  | VFloat _ => "float"
  | VStr _ => "str"
  | VList _ => "list"
  | VDict _ => "dict"
  end.

(** Truth value testing, as [if v:] and [not v] use it. *)
Definition truthy (v : value) : bool :=
  match v with
  | VNone => false
  | VBool b => b
  | VInt z => negb (z =? 0)
  | VFloat r => negb (String.eqb r "0.0" || String.eqb r "-0.0")
  | VStr s => negb (String.eqb s "")
  | VList l => match l with [] => false | _ => true end
  | VDict d => match d with [] => false | _ => true end
  end.

Definition isinstance_dict (v : value) : bool :=
  match v with VDict _ => true | _ => false end.

Definition isinstance_list (v : value) : bool :=
  match v with VList _ => true | _ => false end.

(** ** Exceptions *)

Inductive type_error : Type :=
| NotSubscriptable (ty : string)      (* v[k] on None, bool, int, float *)
| BadIndex (ty : string)              (* v["k"] on a list or a str *)
| NotIterable (ty : string)           (* for x in v *)
| NotContainer (ty : string)          (* k in v *)
| Unhashable (ty : string)            (* dict.get(v) with a list or dict key *)
| QuoteExpectedBytes.                 (* urllib.parse.quote on a non-str *)

Inductive exn : Type :=
| AttributeError (ty attr : string)
| KeyError (k : string)
| TypeError (t : type_error)
| ValueError (msg : string)
| OverflowError (msg : string)
| MemoryError
| JSONDecodeError (msg : string)      (* json.loads on a malformed document *)
| DecodeFailure (msg : string)        (* json.loads: UnicodeDecodeError, RecursionError *)
| RequestException (msg : string)     (* requests: ConnectionError, Timeout, ... *)
| HTTPError (msg : string)            (* requests: raise_for_status *)
| ResponseJSONError (msg : string).   (* requests: Response.json() on a non-JSON body;
                                         a RequestException since requests 2.27 *)

(** [isinstance(e, requests.exceptions.RequestException)] *)
Definition is_RequestException (e : exn) : bool :=
  match e with
  | RequestException _ | HTTPError _ | ResponseJSONError _ => true
  | _ => false
  end.

Inductive res (A : Type) : Type :=
| Ok (a : A)
| Raise (e : exn).
Arguments Ok {A} a.
Arguments Raise {A} e.

(** ** Operations on values *)

(** [v.get(k, dflt)]: only dicts have a [get] method. *)
Definition py_get (v : value) (k : string) (dflt : value) : res value :=
  match v with
  | VDict d => Ok (match assoc k d with Some x => x | None => dflt end)
  | _ => Raise (AttributeError (type_name v) "get")
  end.

(** [v[k]] with a string key [k]. *)
Definition py_getitem (v : value) (k : string) : res value :=
  match v with
  | VDict d => match assoc k d with Some x => Ok x | None => Raise (KeyError k) end
  | VList _ | VStr _ => Raise (TypeError (BadIndex (type_name v)))
  | _ => Raise (TypeError (NotSubscriptable (type_name v)))
  end.

Fixpoint prefixb (p s : string) : bool :=
  match p, s with
  | EmptyString, _ => true
  | String a p', String b s' => Ascii.eqb a b && prefixb p' s'
  | String _ _, EmptyString => false
  end.

(** [needle in s] for two strings *)
Fixpoint substringb (needle s : string) : bool :=
  prefixb needle s ||
  match s with
  | EmptyString => false
  | String _ s' => substringb needle s'
  end.

Definition is_str (k : string) (v : value) : bool :=
  match v with VStr s => String.eqb s k | _ => false end.

(** [k in v] with a string [k]: key test on a dict, element test on a list,
    substring test on a str. *)
Definition py_contains (k : string) (v : value) : res bool :=
  match v with
  | VDict d => Ok (has_key k d)
  | VList l => Ok (existsb (is_str k) l)
  | VStr s => Ok (substringb k s)
  | _ => Raise (TypeError (NotContainer (type_name v)))
  end.

Fixpoint chars (s : string) : list value :=
  match s with
  | EmptyString => []
  | String a s' => VStr (String a EmptyString) :: chars s'
  end.

(** The items a [for] loop over [v] visits: the elements of a list, the keys
    of a dict, the characters of a str (one per byte here; every loop of the
    server raises on its first str item, whatever the character). *)
Definition py_iter (v : value) : res (list value) :=
  match v with
  | VList l => Ok l
  | VDict d => Ok (map (fun kv => VStr (fst kv)) d)
  | VStr s => Ok (chars s)
  | _ => Raise (TypeError (NotIterable (type_name v)))
  end.

Definition str_of_Z (z : Z) : string := NilZero.string_of_int (Z.to_int z).

Section Str.
(** [repr] of a list or a dict *)
Variable py_repr : value -> string.

(** [str(v)], also what an f-string field [{v}] formats to *)
Definition py_str (v : value) : string :=
  match v with
  | VNone => "None"
  | VBool true => "True"
  | VBool false => "False"
  | VInt z => str_of_Z z
  | VFloat r => r
  | VStr s => s
  | VList _ | VDict _ => py_repr v
  end.
End Str.

(** [s.split("/")[-1]]: the text after the last slash *)
Fixpoint last_segment_aux (acc s : string) : string :=
  match s with
  | EmptyString => acc
  | String a s' =>
      if Ascii.eqb a "/"%char then last_segment_aux "" s'
      else last_segment_aux (acc ++ String a EmptyString) s'
  end.

Definition last_segment (s : string) : string := last_segment_aux "" s.

(** [v.split("/")[-1]]: only a str has [split]. *)
Definition py_split_last (v : value) : res value :=
  match v with
  | VStr s => Ok (VStr (last_segment s))
  | _ => Raise (AttributeError (type_name v) "split")
  end.

(** [urllib.parse.quote(s)] with the default [safe="/"], on the UTF-8 bytes
    of [s]. *)
Definition hex_digit (n : N) : ascii :=
  ascii_of_N (if (n <? 10)%N then 48 + n else 55 + n)%N.

Definition always_safe (a : ascii) : bool :=
  let n := N_of_ascii a in
  ((65 <=? n) && (n <=? 90) || (97 <=? n) && (n <=? 122) ||
   (48 <=? n) && (n <=? 57) ||
   (n =? 95) || (n =? 46) || (n =? 45) || (n =? 126) || (n =? 47))%N.

Fixpoint quote_str (s : string) : string :=
  match s with
  | EmptyString => EmptyString
  | String a s' =>
      if always_safe a then String a (quote_str s')
      else
        let n := N_of_ascii a in
        String "%"%char (String (hex_digit (n / 16)) (String (hex_digit (n mod 16)) (quote_str s')))
  end.

Definition quote (v : value) : res string :=
  match v with
  | VStr s => Ok (quote_str s)
  | _ => Raise (TypeError QuoteExpectedBytes)
  end.

(** ** HTTP messages, events, and the monad *)

(** What [requests.request] and [requests.post] are called with. *)
Record http_request : Type := {
  rq_method : string;
  rq_url : string;
  rq_headers : list (string * string);
  rq_auth : option (option string * option string);
  rq_json : option value;
  rq_timeout : option Z
}.

(** What [.json()] of a [requests.Response] does: return the decoded body,
    or raise with a message when the body is not JSON. *)
Inductive json_body : Type :=
| JsonBody (v : value)
| NotJson (msg : string).

Record response : Type := {
  status_code : Z;
  reason : string;
  url : string;
  text : string;
  resp_json : json_body
}.

(** The outcome of one call into [requests]: a response with any status; a
    transport failure (DNS, connect, timeout), which [requests] raises as a
    [RequestException]; or an exception that [requests] lets through as it
    is, such as urllib3's LocationParseError (a ValueError, not a
    RequestException) for a host like [a..b]. *)
Inductive transport : Type :=
| Responded (r : response)
| Failed (msg : string)
| Escaped (e : exn).

Inductive event : Type :=
| EvLookup (name : value)             (* TOOL_HANDLERS.get(name) *)
| EvInvoke (name : value)             (* handler(parameters), found under name *)
| EvUpstream (rq : http_request).     (* requests.request(...) *)

Definition is_upstream (ev : event) : bool :=
  match ev with EvUpstream _ => true | _ => false end.

Definition is_invoke (ev : event) : bool :=
  match ev with EvInvoke _ => true | _ => false end.

Definition is_lookup (ev : event) : bool :=
  match ev with EvLookup _ => true | _ => false end.

Definition upstream_calls (log : list event) : nat :=
  length (filter is_upstream log).

Definition M (A : Type) : Type := list event -> res A * list event.

Definition ret {A} (a : A) : M A := fun log => (Ok a, log).

Definition raise {A} (e : exn) : M A := fun log => (Raise e, log).

Definition bind {A B} (c : M A) (k : A -> M B) : M B :=
  fun log =>
    match c log with
    | (Ok a, log') => k a log'
    | (Raise e, log') => (Raise e, log')
    end.

Definition lift {A} (r : res A) : M A := fun log => (r, log).

Definition emit (ev : event) : M unit := fun log => (Ok tt, (log ++ [ev])%list).

(** [try: x = c; k x  except Exception as e: h e], where [k] does not raise *)
Definition try_except {A B} (c : M A) (k : A -> B) (h : exn -> B) : M B :=
  fun log =>
    match c log with
    | (Ok a, log') => (Ok (k a), log')
    | (Raise e, log') => (Ok (h e), log')
    end.

Definition bindR {A B} (r : res A) (k : A -> res B) : res B :=
  match r with
  | Ok a => k a
  | Raise e => Raise e
  end.

Fixpoint map_res {A B} (f : A -> res B) (l : list A) : res (list B) :=
  match l with
  | [] => Ok []
  | x :: l' =>
      match f x with
      | Ok y => match map_res f l' with
                | Ok ys => Ok (y :: ys)
                | Raise e => Raise e
                end
      | Raise e => Raise e
      end
  end.

Declare Scope py_scope.
Delimit Scope py_scope with py.
Notation "x <- c ;; k" := (bind c (fun x => k))
  (at level 61, c at next level, right associativity) : py_scope.
Notation "x <~ c ;; k" := (bindR c (fun x => k))
  (at level 61, c at next level, right associativity) : py_scope.
Open Scope py_scope.

(** ** The runtime: library behaviour the repository does not determine *)

Record runtime : Type := {
  (** [json.loads] on the request body *)
  json_loads : string -> res value;
  (** [urlparse(p).path]; [urlparse] raises ValueError on some targets,
      such as [http://[] *)
  urlparse_path : string -> res string;
  (** [int(s)] on a header string *)
  py_int : string -> res Z;
  (** the largest buffer, in bytes, the process can allocate for one read *)
  read_max : N;
  (** [repr] of a str, a list or a dict *)
  py_repr : value -> string;
  (** [str(e)] of an interpreter [TypeError] *)
  type_error_str : type_error -> string;
  (** [requests.request] towards the upstream service, given the events so far *)
  requests_request : list event -> http_request -> transport
}.

(** Process-wide configuration read from the environment at import time;
    [ATLASSIAN_URL] already has its trailing slashes stripped. *)
Record config : Type := {
  ATLASSIAN_URL : string;
  ATLASSIAN_EMAIL : option string;
  ATLASSIAN_API_TOKEN : option string
}.

Definition dquote : string := String (ascii_of_N 34) EmptyString.
Definition squote : string := String (ascii_of_N 39) EmptyString.

(** [str(e)] *)
Definition exn_str (rt : runtime) (e : exn) : string :=
  match e with
  | AttributeError ty attr =>
      squote ++ ty ++ squote ++ " object has no attribute " ++ squote ++ attr ++ squote
  | KeyError k => py_repr rt (VStr k)
  | TypeError t => type_error_str rt t
  | MemoryError => ""
  | ValueError m | OverflowError m | JSONDecodeError m | DecodeFailure m
  | RequestException m | HTTPError m | ResponseJSONError m => m
  end.

(** [response.json()] *)
Definition response_json (r : response) : res value :=
  match resp_json r with
  | JsonBody v => Ok v
  | NotJson msg => Raise (ResponseJSONError msg)
  end.

Definition error_result (r : response) : value :=
  VDict [("error", VStr (text r)); ("status_code", VInt (status_code r))].

(** ** mcp_server.py *)

Section Server.
Variable rt : runtime.
Variable cfg : config.

Definition get_auth : option string * option string :=
  (ATLASSIAN_EMAIL cfg, ATLASSIAN_API_TOKEN cfg).

Definition json_headers : list (string * string) :=
  [("Accept", "application/json"); ("Content-Type", "application/json")].

(** [json=data if data else None] *)
Definition json_arg (data : option value) : option value :=
  match data with
  | Some v => if truthy v then Some v else None
  | None => None
  end.

(** [requests.request(...)]: one upstream round trip, logged. *)
Definition send (rq : http_request) : M response :=
  fun log =>
    (match requests_request rt log rq with
     | Responded r => Ok r
     | Failed msg => Raise (RequestException msg)
     | Escaped e => Raise e
     end, (log ++ [EvUpstream rq])%list).

Definition jira_request (method endpoint : string) (data : option value) : M response :=
  send {| rq_method := method;
          rq_url := ATLASSIAN_URL cfg ++ "/rest/api/3" ++ endpoint;
          rq_headers := json_headers;
          rq_auth := Some get_auth;
          rq_json := json_arg data;
          rq_timeout := None |}.

Definition confluence_request (method endpoint : string) (data : option value) : M response :=
  send {| rq_method := method;
          rq_url := ATLASSIAN_URL cfg ++ "/wiki/rest/api" ++ endpoint;
          rq_headers := json_headers;
          rq_auth := Some get_auth;
          rq_json := json_arg data;
          rq_timeout := None |}.

(** *** Connectors *)

Definition project_entry (p : value) : res value :=
  key <~ py_getitem p "key" ;;
  name <~ py_getitem p "name" ;;
  id <~ py_getitem p "id" ;;
  Ok (VDict [("key", key); ("name", name); ("id", id)]).

Definition tool_jira_get_projects (params : value) : M value :=
  response <- jira_request "GET" "/project" None ;;
  if status_code response =? 200 then
    lift (projects <~ response_json response ;;
          items <~ py_iter projects ;;
          entries <~ map_res project_entry items ;;
          Ok (VDict [("projects", VList entries)]))
  else ret (error_result response).

(** One iteration of the loop over [issue_list]: the dict appended to
    [issues]. *)
Definition search_issue_entry (issue : value) : res value :=
  nested <~ py_contains "fields" issue ;;
  if nested then
    key <~ py_getitem issue "key" ;;
    f1 <~ py_getitem issue "fields" ;;
    summary <~ py_getitem f1 "summary" ;;
    f2 <~ py_getitem issue "fields" ;;
    st <~ py_getitem f2 "status" ;;
    status <~ py_getitem st "name" ;;
    f3 <~ py_getitem issue "fields" ;;
    ty <~ py_getitem f3 "issuetype" ;;
    type <~ py_getitem ty "name" ;;
    f4 <~ py_getitem issue "fields" ;;
    created <~ py_getitem f4 "created" ;;
    Ok (VDict [("key", key); ("summary", summary); ("status", status);
               ("type", type); ("created", created)])
  else
    id <~ py_get issue "id" (VStr "unknown") ;;
    key <~ py_get issue "key" id ;;
    summaryText <~ py_get issue "summaryText" (VStr "No summary") ;;
    summary <~ py_get issue "summary" summaryText ;;
    s0 <~ py_get issue "status" VNone ;;
    status <~ (if isinstance_dict s0
               then s1 <~ py_get issue "status" (VDict []) ;;
                    py_get s1 "name" (VStr "Unknown")
               else s2 <~ py_get issue "status" (VStr "Unknown") ;;
                    Ok (VStr (py_str (py_repr rt) s2))) ;;
    t0 <~ py_get issue "issuetype" VNone ;;
    type <~ (if isinstance_dict t0
             then t1 <~ py_get issue "issuetype" (VDict []) ;;
                  py_get t1 "name" (VStr "Unknown")
             else t2 <~ py_get issue "issuetype" (VStr "Unknown") ;;
                  Ok (VStr (py_str (py_repr rt) t2))) ;;
    created <~ py_get issue "created" (VStr "Unknown") ;;
    Ok (VDict [("key", key); ("summary", summary); ("status", status);
               ("type", type); ("created", created)]).

Definition len (l : list value) : value := VInt (Z.of_nat (length l)).

Definition tool_jira_search_issues (params : value) : M value :=
  jql <- lift (py_get params "jql" (VStr "ORDER BY created DESC")) ;;
  max_results <- lift (py_get params "max_results" (VInt 10)) ;;
  let fields := "summary,status,issuetype,created" in
  q <- lift (quote jql) ;;
  response <- jira_request "GET"
    ("/search/jql?jql=" ++ q ++ "&maxResults=" ++ py_str (py_repr rt) max_results
       ++ "&fields=" ++ fields) None ;;
  if status_code response =? 200 then
    lift (data <~ response_json response ;;
          issue_list <~ (if isinstance_list data then Ok data
                         else py_get data "issues" (VList [])) ;;
          items <~ py_iter issue_list ;;
          issues <~ map_res search_issue_entry items ;;
          total <~ (if isinstance_dict data then py_get data "total" (len issues)
                    else Ok (len issues)) ;;
          Ok (VDict [("total", total); ("issues", VList issues)]))
  else ret (error_result response).

Definition required_error (msg : string) : value := VDict [("error", VStr msg)].

Definition issue_entry (issue : value) : res value :=
  key <~ py_getitem issue "key" ;;
  f1 <~ py_getitem issue "fields" ;;
  summary <~ py_getitem f1 "summary" ;;
  f2 <~ py_getitem issue "fields" ;;
  description <~ py_get f2 "description" VNone ;;
  f3 <~ py_getitem issue "fields" ;;
  st <~ py_getitem f3 "status" ;;
  status <~ py_getitem st "name" ;;
  f4 <~ py_getitem issue "fields" ;;
  ty <~ py_getitem f4 "issuetype" ;;
  type <~ py_getitem ty "name" ;;
  f5 <~ py_getitem issue "fields" ;;
  pr <~ py_get f5 "priority" (VDict []) ;;
  priority <~ py_get pr "name" VNone ;;
  f6 <~ py_getitem issue "fields" ;;
  a0 <~ py_get f6 "assignee" VNone ;;
  assignee <~ (if truthy a0
               then f7 <~ py_getitem issue "fields" ;;
                    a1 <~ py_get f7 "assignee" (VDict []) ;;
                    py_get a1 "displayName" VNone
               else Ok VNone) ;;
  f8 <~ py_getitem issue "fields" ;;
  created <~ py_getitem f8 "created" ;;
  f9 <~ py_getitem issue "fields" ;;
  updated <~ py_getitem f9 "updated" ;;
  Ok (VDict [("key", key); ("summary", summary); ("description", description);
             ("status", status); ("type", type); ("priority", priority);
             ("assignee", assignee); ("created", created); ("updated", updated)]).

Definition tool_jira_get_issue (params : value) : M value :=
  issue_key <- lift (py_get params "issue_key" VNone) ;;
  if negb (truthy issue_key) then ret (required_error "issue_key is required")
  else
    response <- jira_request "GET" ("/issue/" ++ py_str (py_repr rt) issue_key) None ;;
    if status_code response =? 200 then
      lift (issue <~ response_json response ;; issue_entry issue)
    else ret (error_result response).

Definition create_payload (project_key summary issue_type description : value) : value :=
  VDict [("fields", VDict [
    ("project", VDict [("key", project_key)]);
    ("summary", summary);
    ("issuetype", VDict [("name", issue_type)]);
    ("description", VDict [
      ("type", VStr "doc");
      ("version", VInt 1);
      ("content",
        if truthy description
        then VList [VDict [("type", VStr "paragraph");
                           ("content", VList [VDict [("type", VStr "text");
                                                     ("text", description)]])]]
        else VList [])])])].

Definition created_entry (result : value) : res value :=
  key <~ py_getitem result "key" ;;
  id <~ py_getitem result "id" ;;
  self <~ py_getitem result "self" ;;
  Ok (VDict [("key", key); ("id", id); ("self", self)]).

Definition tool_jira_create_issue (params : value) : M value :=
  project_key <- lift (py_get params "project_key" VNone) ;;
  summary <- lift (py_get params "summary" VNone) ;;
  issue_type <- lift (py_get params "issue_type" (VStr "Task")) ;;
  description <- lift (py_get params "description" (VStr "")) ;;
  if negb (truthy project_key) || negb (truthy summary)
  then ret (required_error "project_key and summary are required")
  else
    let data := create_payload project_key summary issue_type description in
    response <- jira_request "POST" "/issue" (Some data) ;;
    if (status_code response =? 200) || (status_code response =? 201) then
      lift (result <~ response_json response ;; created_entry result)
    else ret (error_result response).

Definition space_entry (space : value) : res value :=
  key <~ py_getitem space "key" ;;
  name <~ py_getitem space "name" ;;
  type <~ py_getitem space "type" ;;
  id <~ py_getitem space "id" ;;
  Ok (VDict [("key", key); ("name", name); ("type", type); ("id", id)]).

Definition tool_confluence_get_spaces (params : value) : M value :=
  response <- confluence_request "GET" "/space" None ;;
  if status_code response =? 200 then
    lift (data <~ response_json response ;;
          results <~ py_get data "results" (VList []) ;;
          items <~ py_iter results ;;
          spaces <~ map_res space_entry items ;;
          Ok (VDict [("spaces", VList spaces)]))
  else ret (error_result response).

(** One iteration of the loop over the search results. *)
Definition page_entry (page : value) : res value :=
  expandable <~ py_get page "_expandable" (VDict []) ;;
  expandable_space <~ py_get expandable "space" (VStr "") ;;
  space_key <~ (if truthy expandable_space
                then slash <~ py_contains "/" expandable_space ;;
                     if slash then py_split_last expandable_space else Ok VNone
                else Ok VNone) ;;
  id <~ py_getitem page "id" ;;
  title <~ py_getitem page "title" ;;
  type <~ py_getitem page "type" ;;
  Ok (VDict [("id", id); ("title", title); ("type", type); ("space", space_key)]).

Definition tool_confluence_search (params : value) : M value :=
  query <- lift (py_get params "query" VNone) ;;
  max_results <- lift (py_get params "max_results" (VInt 10)) ;;
  if negb (truthy query) then ret (required_error "query is required")
  else
    let cql := "type=page AND title~" ++ dquote ++ py_str (py_repr rt) query ++ dquote in
    response <- confluence_request "GET"
      ("/content/search?cql=" ++ quote_str cql ++ "&limit="
         ++ py_str (py_repr rt) max_results) None ;;
    if status_code response =? 200 then
      lift (data <~ response_json response ;;
            results <~ py_get data "results" (VList []) ;;
            items <~ py_iter results ;;
            pages <~ map_res page_entry items ;;
            total <~ py_get data "size" (len pages) ;;
            Ok (VDict [("total", total); ("pages", VList pages)]))
    else ret (error_result response).

Definition page_content (page : value) : res value :=
  id <~ py_getitem page "id" ;;
  title <~ py_getitem page "title" ;;
  sp <~ py_get page "space" (VDict []) ;;
  space <~ py_get sp "key" VNone ;;
  ve <~ py_get page "version" (VDict []) ;;
  version <~ py_get ve "number" VNone ;;
  bo <~ py_get page "body" (VDict []) ;;
  storage <~ py_get bo "storage" (VDict []) ;;
  body <~ py_get storage "value" (VStr "") ;;
  Ok (VDict [("id", id); ("title", title); ("space", space);
             ("version", version); ("body", body)]).

Definition tool_confluence_get_page (params : value) : M value :=
  page_id <- lift (py_get params "page_id" VNone) ;;
  if negb (truthy page_id) then ret (required_error "page_id is required")
  else
    response <- confluence_request "GET"
      ("/content/" ++ py_str (py_repr rt) page_id ++ "?expand=body.storage,space,version")
      None ;;
    if status_code response =? 200 then
      lift (page <~ response_json response ;; page_content page)
    else ret (error_result response).

(** *** The registry and the dispatch table *)

Definition parameter_spec (name type description : string) (required : bool) : value :=
  VDict [("name", VStr name); ("type", VStr type);
         ("description", VStr description); ("required", VBool required)].

Definition tool_descriptor (name description : string) (parameters : list value) : value :=
  VDict [("name", VStr name); ("description", VStr description);
         ("parameters", VList parameters)].

Definition TOOLS : list value := [
  tool_descriptor "jira_get_projects"
    "List all Jira projects accessible to the user" [];
  tool_descriptor "jira_search_issues"
    "Search Jira issues using JQL (Jira Query Language)"
    [parameter_spec "jql" "string" "JQL query string" false;
     parameter_spec "max_results" "integer" "Maximum results (default 10)" false];
  tool_descriptor "jira_get_issue"
    "Get details of a specific Jira issue by key"
    [parameter_spec "issue_key" "string" "Issue key (e.g., PROJ-123)" true];
  tool_descriptor "jira_create_issue"
    "Create a new Jira issue"
    [parameter_spec "project_key" "string" "Project key (e.g., PROJ)" true;
     parameter_spec "summary" "string" "Issue summary/title" true;
     parameter_spec "issue_type" "string" "Issue type (Task, Bug, Story)" false;
     parameter_spec "description" "string" "Issue description" false];
  tool_descriptor "confluence_get_spaces"
    "List all Confluence spaces accessible to the user" [];
  tool_descriptor "confluence_search"
    "Search Confluence pages by text"
    [parameter_spec "query" "string" "Search query text" true;
     parameter_spec "max_results" "integer" "Maximum results (default 10)" false];
  tool_descriptor "confluence_get_page"
    "Get content of a specific Confluence page"
    [parameter_spec "page_id" "string" "Page ID" true]
].

Definition handler : Type := value -> M value.

Definition TOOL_HANDLERS : list (string * handler) := [
  ("jira_get_projects", tool_jira_get_projects);
  ("jira_search_issues", tool_jira_search_issues);
  ("jira_get_issue", tool_jira_get_issue);
  ("jira_create_issue", tool_jira_create_issue);
  ("confluence_get_spaces", tool_confluence_get_spaces);
  ("confluence_search", tool_confluence_search);
  ("confluence_get_page", tool_confluence_get_page)
].

Fixpoint find_handler (k : string) (t : list (string * handler)) : option handler :=
  match t with
  | [] => None
  | (k', h) :: t' => if String.eqb k k' then Some h else find_handler k t'
  end.

(** [TOOL_HANDLERS.get(name)]: a list or dict key is unhashable; a key that
    is not a str equals none of the table's keys. *)
Definition handlers_get (name : value) : res (option handler) :=
  match name with
  | VStr s => Ok (find_handler s TOOL_HANDLERS)
  | VList _ | VDict _ => Raise (TypeError (Unhashable (type_name name)))
  | _ => Ok None
  end.

(** *** MCPRequestHandler *)

Record request : Type := {
  req_path : string;                       (* self.path *)
  req_content_length : option string;      (* the Content-Length header *)
  req_rfile : string                       (* the bytes the client sends *)
}.

Record http_response : Type := {
  status : Z;
  headers : list (string * string);
  body : option value                      (* the value json.dumps writes *)
}.

Definition _send_json (data : value) (status : Z) : http_response :=
  {| status := status;
     headers := [("Content-Type", "application/json");
                 ("Access-Control-Allow-Origin", "*")];
     body := Some data |}.

Definition do_OPTIONS (r : request) : http_response :=
  {| status := 200;
     headers := [("Access-Control-Allow-Origin", "*");
                 ("Access-Control-Allow-Methods", "GET, POST, OPTIONS");
                 ("Access-Control-Allow-Headers", "Content-Type")];
     body := None |}.

(** [do_GET] raises, and writes nothing, when [urlparse] does. *)
Definition do_GET (r : request) : res http_response :=
  path <~ urlparse_path rt (req_path r) ;;
  Ok (if String.eqb path "/health" then
        _send_json (VDict [("status", VStr "healthy"); ("service", VStr "atlassian-mcp")]) 200
      else if String.eqb path "/mcp/v1/tools" then
        _send_json (VDict [("tools", VList TOOLS)]) 200
      else _send_json (VDict [("error", VStr "Not found")]) 404).

(** The largest read length the buffered reader takes (a 64-bit build). *)
Definition ssize_max : Z := 9223372036854775807.

(** [self.rfile.read(n)] on the buffered reader of the connection, [stream]
    being the bytes the client sends: ValueError for [n < -1]; everything up
    to the end of the stream for [n = -1]; OverflowError for a length beyond
    [ssize_max]; MemoryError for a length whose buffer cannot be allocated;
    otherwise at most [n] bytes. *)
Definition rfile_read (n : Z) (stream : string) : res string :=
  if n <? -1 then Raise (ValueError "read length must be non-negative or -1")
  else if n =? -1 then Ok stream
  else if ssize_max <? n
       then Raise (OverflowError "cannot fit 'int' into an index-sized integer")
  else if Z.of_N (read_max rt) <? n then Raise MemoryError
  else Ok (substring 0 (Z.to_nat n) stream).

(** [int(self.headers.get("Content-Length", 0))] *)
Definition content_length (r : request) : res Z :=
  match req_content_length r with
  | Some s => py_int rt s
  | None => Ok 0
  end.

(** [json.loads(body) if body else {}] *)
Definition load_body (body : string) : res value :=
  if String.eqb body "" then Ok (VDict []) else json_loads rt body.

Definition invoke_tool (data : value) : M http_response :=
  tool_name <- lift (py_get data "name" VNone) ;;
  parameters <- lift (py_get data "parameters" (VDict [])) ;;
  if negb (truthy tool_name) then
    ret (_send_json (VDict [("error", VStr "Tool name is required")]) 400)
  else
    _ <- emit (EvLookup tool_name) ;;
    found <- lift (handlers_get tool_name) ;;
    match found with
    | None =>
        ret (_send_json
               (VDict [("error", VStr ("Unknown tool: " ++ py_str (py_repr rt) tool_name))])
               404)
    | Some h =>
        _ <- emit (EvInvoke tool_name) ;;
        try_except (h parameters)
          (fun result => _send_json (VDict [("result", result); ("error", VNone)]) 200)
          (fun e => _send_json (VDict [("result", VNone); ("error", VStr (exn_str rt e))]) 500)
    end.

Definition do_POST (r : request) : M http_response :=
  path <- lift (urlparse_path rt (req_path r)) ;;
  n <- lift (content_length r) ;;
  body <- lift (rfile_read n (req_rfile r)) ;;
  match load_body body with
  | Raise (JSONDecodeError _) =>
      ret (_send_json (VDict [("error", VStr "Invalid JSON")]) 400)
  | Raise e => raise e
  | Ok data =>
      if String.eqb path "/mcp/v1/invoke" then invoke_tool data
      else ret (_send_json (VDict [("error", VStr "Not found")]) 404)
  end.

(** *** The server loop *)

Inductive http_method : Type := GET | POST | OPTIONS.

(** One request: [None] when the handler method raised and no response was
    written (the socket server reports the error and goes on serving). *)
Definition handle_one_request (m : http_method) (r : request) : M (option http_response) :=
  match m with
  | GET => ret (match do_GET r with
                 | Ok resp => Some resp
                 | Raise _ => None
                 end)
  | OPTIONS => ret (Some (do_OPTIONS r))
  | POST => fun log =>
      match do_POST r log with
      | (Ok resp, log') => (Ok (Some resp), log')
      | (Raise _, log') => (Ok None, log')
      end
  end.

Fixpoint serve_forever (reqs : list (http_method * request)) : M (list (option http_response)) :=
  match reqs with
  | [] => ret []
  | (m, r) :: reqs' =>
      resp <- handle_one_request m r ;;
      resps <- serve_forever reqs' ;;
      ret (resp :: resps)
  end.

End Server.

(** ** solution.py: MCPClient *)

Section Client.
Variable rt : runtime.
(** [requests.get] and [requests.post] towards the MCP server *)
Variable requests_call : http_request -> transport.

Fixpoint rstrip_slash (s : string) : string :=
  match s with
  | EmptyString => EmptyString
  | String a s' =>
      match rstrip_slash s' with
      | EmptyString => if Ascii.eqb a "/"%char then EmptyString else String a EmptyString
      | rest => String a rest
      end
  end.

Record MCPClient : Type := { server_url : string }.

(** [MCPClient.__init__] *)
Definition new_client (url : string) : MCPClient :=
  {| server_url := rstrip_slash url |}.

Definition call (rq : http_request) : res response :=
  match requests_call rq with
  | Responded r => Ok r
  | Failed msg => Raise (RequestException msg)
  | Escaped e => Raise e
  end.

(** [response.raise_for_status()] *)
Definition raise_for_status (r : response) : res unit :=
  let code := status_code r in
  if (400 <=? code) && (code <? 500) then
    Raise (HTTPError (str_of_Z code ++ " Client Error: " ++ reason r ++ " for url: " ++ url r))
  else if (500 <=? code) && (code <? 600) then
    Raise (HTTPError (str_of_Z code ++ " Server Error: " ++ reason r ++ " for url: " ++ url r))
  else Ok tt.

(** [try: body  except requests.exceptions.RequestException as e: h e] *)
Definition except_RequestException {A} (c : res A) (h : exn -> A) : res A :=
  match c with
  | Ok a => Ok a
  | Raise e => if is_RequestException e then Ok (h e) else Raise e
  end.

Definition health_check (c : MCPClient) : res bool :=
  except_RequestException
    (response <~ call {| rq_method := "GET"; rq_url := server_url c ++ "/health";
                         rq_headers := []; rq_auth := None; rq_json := None;
                         rq_timeout := Some 5 |} ;;
     Ok (status_code response =? 200))
    (fun _ => false).


(** [parameters or {}] *)
Definition or_empty (parameters : value) : value :=
  if truthy parameters then parameters else VDict [].

Definition invoke_request (c : MCPClient) (tool_name parameters : value) : http_request :=
  {| rq_method := "POST";
     rq_url := server_url c ++ "/mcp/v1/invoke";
     rq_headers := [];
     rq_auth := None;
     rq_json := Some (VDict [("name", tool_name); ("parameters", or_empty parameters)]);
     rq_timeout := Some 30 |}.

Definition invoke (c : MCPClient) (tool_name parameters : value) : res value :=
  except_RequestException
    (response <~ call (invoke_request c tool_name parameters) ;;
     _ <~ raise_for_status response ;;
     response_json response)
    (fun e => VDict [("error", VStr (exn_str rt e)); ("result", VNone)]).

End Client.

(** ** A concrete runtime, for running the model on examples *)

Fixpoint digits_value (acc : Z) (s : string) : res Z :=
  match s with
  | EmptyString => Ok acc
  | String a s' =>
      let n := Z.of_N (N_of_ascii a) in
      if (48 <=? n) && (n <=? 57) then digits_value (10 * acc + (n - 48)) s'
      else Raise (ValueError "invalid literal for int() with base 10")
  end.

(** [int] on a string of ASCII digits *)
Definition int_of_digits (s : string) : res Z :=
  match s with
  | EmptyString => Raise (ValueError "invalid literal for int() with base 10")
  | _ => digits_value 0 s
  end.

(** A runtime whose decoder yields [decoded] for the request body and whose
    upstream answers every request with [up]; request targets carry no query
    or fragment. *)
Definition fixed_runtime (decoded : res value) (up : transport) : runtime :=
  {| json_loads := fun _ => decoded;
     urlparse_path := fun p => Ok p;
     py_int := int_of_digits;
     read_max := 1073741824;
     py_repr := fun v => match v with
                         | VStr s => squote ++ s ++ squote
                         | VList [] => "[]"
                         | VDict [] => "{}"
                         | _ => "..."
                         end;
     type_error_str := fun _ => "TypeError";
     requests_request := fun _ _ => up |}.

Definition demo_config : config :=
  {| ATLASSIAN_URL := "https://example.atlassian.net";
     ATLASSIAN_EMAIL := Some "dev@example.com";
     ATLASSIAN_API_TOKEN := Some "token" |}.

Definition upstream_response (code : Z) (body : string) (j : json_body) : response :=
  {| status_code := code; reason := ""; url := ""; text := body; resp_json := j |}.

(** A request to [target] whose Content-Length is the length of [bytes]. *)
Definition request_with_body (target bytes : string) : request :=
  {| req_path := target;
     req_content_length := Some (str_of_Z (Z.of_nat (String.length bytes)));
     req_rfile := bytes |}.

(** A JSON string literal without escapes *)
Definition jstr (s : string) : string := dquote ++ s ++ dquote.

(** The body [{"name": <tool>, "parameters": <parameters>}] and what it
    decodes to *)
Definition invoke_body (tool parameters : string) : string :=
  "{" ++ jstr "name" ++ ": " ++ jstr tool ++ ", " ++ jstr "parameters" ++ ": " ++ parameters ++ "}".

Definition invoke_data (tool : string) (parameters : value) : value :=
  VDict [("name", VStr tool); ("parameters", parameters)].

(** ** Reading the registry *)

(** [t["name"]] of a tool descriptor *)
Definition descriptor_name (t : value) : string :=
  match py_getitem t "name" with
  | Ok (VStr s) => s
  | _ => ""
  end.

Definition registry_names : list string := map descriptor_name TOOLS.


(** The parameter [k] is absent from [d], or its value is empty (falsy). *)
Definition absent_or_empty (k : string) (d : pydict) : bool :=
  match assoc k d with
  | None => true
  | Some v => negb (truthy v)
  end.

(** The names of the parameters a tool descriptor declares as required. *)
Definition is_required (p : value) : bool :=
  match py_getitem p "required" with
  | Ok (VBool true) => true
  | _ => false
  end.

Definition required_parameters (t : value) : list string :=
  match py_getitem t "parameters" with
  | Ok (VList ps) => map descriptor_name (filter is_required ps)
  | _ => []
  end.

(** The POST did not deliver a usable response and [requests] said so with
    a RequestException: the transport failed, or the response has an error
    status, which [raise_for_status] turns into an exception. *)
Definition transport_failure (o : transport) : bool :=
  match o with
  | Failed _ => true
  | Responded r => (400 <=? status_code r) && (status_code r <? 600)
  | Escaped e => is_RequestException e
  end.


(** The status a response is written with, when one is written. *)
Definition status_of (o : res http_response * list event) : option Z :=
  match fst o with
  | Ok resp => Some (status resp)
  | Raise _ => None
  end.

(** The upstream statuses a connector takes as success: 200, and also 201
    for jira_create_issue. *)
Definition success_status (tool : string) (code : Z) : bool :=
  (code =? 200) || (String.eqb tool "jira_create_issue" && (code =? 201)).

Definition is_2xx (code : Z) : bool := (200 <=? code) && (code <? 300).

(** ** What the connectors expect from the upstream service *)

(** The keys of the mapping each connector returns on success. *)
Definition domain_keys (tool : string) : list string :=
  if String.eqb tool "jira_get_projects" then ["projects"]
  else if String.eqb tool "jira_search_issues" then ["total"; "issues"]
  else if String.eqb tool "jira_get_issue" then
    ["key"; "summary"; "description"; "status"; "type"; "priority"; "assignee";
     "created"; "updated"]
  else if String.eqb tool "jira_create_issue" then ["key"; "id"; "self"]
  else if String.eqb tool "confluence_get_spaces" then ["spaces"]
  else if String.eqb tool "confluence_search" then ["total"; "pages"]
  else if String.eqb tool "confluence_get_page" then ["id"; "title"; "space"; "version"; "body"]
  else [].

(** [v] is an object with all the keys [ks]. *)
Definition has_keys (ks : list string) (v : value) : bool :=
  match v with
  | VDict d => forallb (fun k => has_key k d) ks
  | _ => false
  end.

(** The entry [k] of [d] is an object with a "name". *)
Definition named (k : string) (d : pydict) : bool :=
  match assoc k d with
  | Some (VDict n) => has_key "name" n
  | _ => false
  end.

(** The entry [k] of [d] is absent or an object. *)
Definition optional_object (k : string) (d : pydict) : bool :=
  match assoc k d with
  | None | Some (VDict _) => true
  | _ => false
  end.

(** The entry [k] of [d] is absent or a list whose items all satisfy [item]. *)
Definition optional_list (item : value -> bool) (k : string) (d : pydict) : bool :=
  match assoc k d with
  | None => true
  | Some (VList l) => forallb item l
  | _ => false
  end.

(** An issue of a search result: flat (no "fields" key), or nested with a
    key and with summary, status name, issue type name and creation date
    under "fields". *)
Definition issue_item_shape (issue : value) : bool :=
  match issue with
  | VDict d =>
      match assoc "fields" d with
      | None => true
      | Some (VDict f) =>
          has_key "key" d && has_key "summary" f && named "status" f &&
          named "issuetype" f && has_key "created" f
      | Some _ => false
      end
  | _ => false
  end.

Definition issue_shape (issue : value) : bool :=
  match issue with
  | VDict d =>
      has_key "key" d &&
      match assoc "fields" d with
      | Some (VDict f) =>
          has_key "summary" f && named "status" f && named "issuetype" f &&
          optional_object "priority" f &&
          match assoc "assignee" f with
          | None | Some (VDict _) | Some VNone => true
          | Some _ => false
          end &&
          has_key "created" f && has_key "updated" f
      | _ => false
      end
  | _ => false
  end.

(** A page of a search result: id, title and type, and an "_expandable"
    entry that is absent or an object whose "space" is absent or a string. *)
Definition page_item_shape (page : value) : bool :=
  match page with
  | VDict p =>
      has_key "id" p && has_key "title" p && has_key "type" p &&
      match assoc "_expandable" p with
      | None => true
      | Some (VDict e) =>
          match assoc "space" e with
          | None | Some (VStr _) => true
          | Some _ => false
          end
      | Some _ => false
      end
  | _ => false
  end.

Definition page_shape (page : value) : bool :=
  match page with
  | VDict p =>
      has_key "id" p && has_key "title" p &&
      optional_object "space" p && optional_object "version" p &&
      match assoc "body" p with
      | None => true
      | Some (VDict b) => optional_object "storage" b
      | Some _ => false
      end
  | _ => false
  end.

(** The JSON document each connector can normalise. *)
Definition expected_shape (tool : string) (j : json_body) : bool :=
  match j with
  | NotJson _ => false
  | JsonBody v =>
      if String.eqb tool "jira_get_projects" then
        match v with
        | VList ps => forallb (has_keys ["key"; "name"; "id"]) ps
        | _ => false
        end
      else if String.eqb tool "jira_search_issues" then
        match v with
        | VList items => forallb issue_item_shape items
        | VDict d => optional_list issue_item_shape "issues" d
        | _ => false
        end
      else if String.eqb tool "jira_get_issue" then issue_shape v
      else if String.eqb tool "jira_create_issue" then has_keys ["key"; "id"; "self"] v
      else if String.eqb tool "confluence_get_spaces" then
        match v with
        | VDict d => optional_list (has_keys ["key"; "name"; "type"; "id"]) "results" d
        | _ => false
        end
      else if String.eqb tool "confluence_search" then
        match v with
        | VDict d => optional_list page_item_shape "results" d
        | _ => false
        end
      else if String.eqb tool "confluence_get_page" then page_shape v
      else false
  end.

(** ** mcp_server.py: configuration and start-up *)

(** The REST root a tool's requests go to: the issue tracker for the
    [jira_] tools, the wiki for the others. *)
Definition api_prefix (tool : string) : string :=
  if prefixb "jira_" tool then "/rest/api/3" else "/wiki/rest/api".

(** The module-level assignments: [os.getenv("ATLASSIAN_URL", "").rstrip("/")]
    and the two credentials, read from the environment [getenv]. *)
Definition load_config (getenv : string -> option string) : config :=
  {| ATLASSIAN_URL :=
       rstrip_slash (match getenv "ATLASSIAN_URL" with Some u => u | None => "" end);
     ATLASSIAN_EMAIL := getenv "ATLASSIAN_EMAIL";
     ATLASSIAN_API_TOKEN := getenv "ATLASSIAN_API_TOKEN" |}.

Definition nonempty (s : string) : bool := negb (String.eqb s "").

Definition set_and_nonempty (o : option string) : bool :=
  match o with
  | Some s => nonempty s
  | None => false
  end.

(** [all([ATLASSIAN_URL, ATLASSIAN_EMAIL, ATLASSIAN_API_TOKEN])] *)
Definition configuration_complete (cfg : config) : bool :=
  nonempty (ATLASSIAN_URL cfg) && set_and_nonempty (ATLASSIAN_EMAIL cfg)
  && set_and_nonempty (ATLASSIAN_API_TOKEN cfg).

(** [str(o)] of an optional string, as an f-string prints it *)
Definition str_option (o : option string) : string :=
  match o with
  | Some s => s
  | None => "None"
  end.

Definition nl : string := String (ascii_of_N 10) EmptyString.

(** ["=" * n] *)
Fixpoint rule (n : nat) : string :=
  match n with
  | O => EmptyString
  | S n' => String "="%char (rule n')
  end.

(** [main()] of the server: the lines it prints, then the port it starts
    serving on, [None] when it returns without starting the server; it raises
    when MCP_PORT is not a number. *)
Definition server_main (rt : runtime) (getenv : string -> option string)
  : list string * res (option Z) :=
  let cfg := load_config getenv in
  if negb (configuration_complete cfg) then
    (["Error: Missing Atlassian configuration!";
      "Please set the following environment variables:";
      "  - ATLASSIAN_URL";
      "  - ATLASSIAN_EMAIL";
      "  - ATLASSIAN_API_TOKEN"], Ok None)
  else
    match (match getenv "MCP_PORT" with Some s => py_int rt s | None => Ok 8000 end) with
    | Raise e => ([], Raise e)
    | Ok port =>
        let p := str_of_Z port in
        ([rule 60;
          " Atlassian MCP Server";
          rule 60;
          nl ++ "Atlassian URL: " ++ ATLASSIAN_URL cfg;
          "User: " ++ str_option (ATLASSIAN_EMAIL cfg);
          nl ++ "Starting server on http://localhost:" ++ p;
          nl ++ "Endpoints:";
          "  GET  http://localhost:" ++ p ++ "/health";
          "  GET  http://localhost:" ++ p ++ "/mcp/v1/tools";
          "  POST http://localhost:" ++ p ++ "/mcp/v1/invoke";
          nl ++ "Press Ctrl+C to stop" ++ nl;
          rule 60], Ok (Some port))
    end.

(** [s] ends with a slash. *)
Fixpoint ends_with_slash (s : string) : bool :=
  match s with
  | EmptyString => false
  | String a EmptyString => Ascii.eqb a "/"%char
  | String _ s' => ends_with_slash s'
  end.

(** A run of [n] slashes *)
Fixpoint slashes (n : nat) : string :=
  match n with
  | O => EmptyString
  | S n' => String "/"%char (slashes n')
  end.

(** ** Reading a run of the server *)

(** The events a POST can add to the log. *)
Inductive post_trace : list event -> Prop :=
| trace_none : post_trace []
| trace_lookup (v : value) : post_trace [EvLookup v]
| trace_invoke (v : value) : post_trace [EvLookup v; EvInvoke v]
| trace_upstream (v : value) (rq : http_request) :
    post_trace [EvLookup v; EvInvoke v; EvUpstream rq].

(** The descriptor declares at least one parameter. *)
Definition declares_parameters (t : value) : bool :=
  match py_getitem t "parameters" with
  | Ok (VList (_ :: _)) => true
  | _ => false
  end.

Definition is_post (m : http_method) : bool :=
  match m with POST => true | _ => false end.

(** ** solution.py: the demo functions *)

Section ClientDemos.
Variable rt : runtime.
Variable requests_call : http_request -> transport.

(** What a function printed, one entry per [print] call, and how it ended. *)
Definition printed (A : Type) : Type := (list string * res A)%type.

(** A [for] loop whose body prints and may raise. *)
Fixpoint for_each (body : value -> printed unit) (items : list value) : printed unit :=
  match items with
  | [] => ([], Ok tt)
  | x :: rest =>
      match body x with
      | (out, Ok _) => let (out', r) := for_each body rest in ((out ++ out')%list, r)
      | (out, Raise e) => (out, Raise e)
      end
  end.

(** [MCPClient.list_tools] with the line its [except] branch prints. *)
Definition list_tools_printed (c : MCPClient) : printed value :=
  match (response <~ call requests_call
                        {| rq_method := "GET"; rq_url := server_url c ++ "/mcp/v1/tools";
                           rq_headers := []; rq_auth := None; rq_json := None;
                           rq_timeout := None |} ;;
         _ <~ raise_for_status response ;;
         data <~ response_json response ;;
         py_get data "tools" (VList [])) with
  | Ok tools => ([], Ok tools)
  | Raise e =>
      if is_RequestException e
      then (["Error listing tools: " ++ exn_str rt e], Ok (VList []))
      else ([], Raise e)
  end.

Definition tool_lines (tool : value) : printed unit :=
  match (name <~ py_get tool "name" (VStr "Unknown") ;;
         desc <~ py_get tool "description" (VStr "No description") ;;
         Ok (name, desc)) with
  | Ok (name, desc) =>
      (["   - " ++ py_str (py_repr rt) name; "     " ++ py_str (py_repr rt) desc], Ok tt)
  | Raise e => ([], Raise e)
  end.

Definition demo_list_tools (c : MCPClient) : printed value :=
  let header := nl ++ "--- Available MCP Tools ---" in
  match list_tools_printed c with
  | (out, Raise e) => (header :: out, Raise e)
  | (out, Ok tools) =>
      if negb (truthy tools) then
        ((header :: out) ++ ["   No tools found (is the server running?)"], Ok (VList []))%list
      else
        match py_iter tools with
        | Raise e => (header :: out, Raise e)
        | Ok items =>
            match for_each tool_lines items with
            | (out', Ok _) => ((header :: out) ++ out', Ok tools)%list
            | (out', Raise e) => ((header :: out) ++ out', Raise e)%list
            end
        end
  end.

(** The part the two listing demos share in the source, written out twice
    there: print the envelope's error, or the entries of [result[key]] with
    one line each, or [nothing]. *)
Definition print_listing (result : value) (key nothing : string)
    (line : value -> res string) : printed unit :=
  match py_get result "error" VNone with
  | Raise e => ([], Raise e)
  | Ok err =>
      if truthy err then
        match py_getitem result "error" with
        | Ok v => (["   Error: " ++ py_str (py_repr rt) v], Ok tt)
        | Raise e => ([], Raise e)
        end
      else
        match (inner <~ py_get result "result" (VDict []) ;;
               py_get inner key (VList [])) with
        | Raise e => ([], Raise e)
        | Ok entries =>
            if truthy entries then
              match py_iter entries with
              | Raise e => ([], Raise e)
              | Ok items =>
                  for_each (fun x => match line x with
                                     | Ok l => ([l], Ok tt)
                                     | Raise e => ([], Raise e)
                                     end) items
              end
            else ([nothing], Ok tt)
        end
  end.

Definition project_line (proj : value) : res string :=
  key <~ py_getitem proj "key" ;;
  name <~ py_getitem proj "name" ;;
  Ok ("   - [" ++ py_str (py_repr rt) key ++ "] " ++ py_str (py_repr rt) name).

Definition demo_jira_projects (c : MCPClient) : printed unit :=
  let header := nl ++ "--- Jira Projects ---" in
  match invoke rt requests_call c (VStr "jira_get_projects") VNone with
  | Raise e => ([header], Raise e)
  | Ok result =>
      let (out, r) := print_listing result "projects" "   No projects found" project_line in
      (header :: out, r)
  end.

Definition space_line (space : value) : res string :=
  key <~ py_getitem space "key" ;;
  name <~ py_getitem space "name" ;;
  type <~ py_getitem space "type" ;;
  Ok ("   - [" ++ py_str (py_repr rt) key ++ "] " ++ py_str (py_repr rt) name
        ++ " (" ++ py_str (py_repr rt) type ++ ")").

Definition demo_confluence_spaces (c : MCPClient) : printed unit :=
  let header := nl ++ "--- Confluence Spaces ---" in
  match invoke rt requests_call c (VStr "confluence_get_spaces") VNone with
  | Raise e => ([header], Raise e)
  | Ok result =>
      let (out, r) := print_listing result "spaces" "   No spaces found" space_line in
      (header :: out, r)
  end.

End ClientDemos.

(** The envelope [d] written with status [code]: a result and a null error
    with 200, a null result and an error message with 500, an error message
    alone with 400 and 404. *)
Definition envelope_for (code : Z) (d : pydict) : Prop :=
  (code = 200 /\ assoc "error" d = Some VNone /\ exists v, assoc "result" d = Some v) \/
  (code = 500 /\ assoc "result" d = Some VNone /\ exists m, assoc "error" d = Some (VStr m)) \/
  ((code = 400 \/ code = 404) /\ assoc "result" d = None /\
   exists m, assoc "error" d = Some (VStr m)).

(** The issues of an upstream search document: the document itself when it
    is a list, its "issues" entry when it is an object. *)
Definition issue_items (v : value) : list value :=
  match v with
  | VList l => l
  | VDict d => match assoc "issues" d with Some (VList l) => l | _ => [] end
  | _ => []
  end.

(** The total a search document announces, if it is an object that has one. *)
Definition announced_total (v : value) : option value :=
  match v with
  | VDict d => assoc "total" d
  | _ => None
  end.

(** A search document with one nested and one flat issue and no total. *)
Definition two_issues : value :=
  VDict [("issues", VList [
    VDict [("key", VStr "PROJ-1");
           ("fields", VDict [("summary", VStr "First");
                             ("status", VDict [("name", VStr "Open")]);
                             ("issuetype", VDict [("name", VStr "Bug")]);
                             ("created", VStr "2024-01-01")])];
    VDict [("id", VStr "10002"); ("summaryText", VStr "Second")]])].

(** An environment with the three Atlassian variables set, the URL being
    [url], and no MCP_PORT. *)
Definition env_with_url (url : string) (name : string) : option string :=
  if String.eqb name "ATLASSIAN_URL" then Some url
  else if String.eqb name "ATLASSIAN_EMAIL" then Some "dev@example.com"
  else if String.eqb name "ATLASSIAN_API_TOKEN" then Some "token"
  else None.

(** The message of the HTTPError that [raise_for_status] raises for an error
    status. *)
Definition http_error_message (r : response) : string :=
  str_of_Z (status_code r)
  ++ (if status_code r <? 500 then " Client Error: " else " Server Error: ")
  ++ reason r ++ " for url: " ++ url r.

Definition error_status (code : Z) : bool := (400 <=? code) && (code <? 600).

(** The GET requests of the client *)
Definition health_request (c : MCPClient) : http_request :=
  {| rq_method := "GET"; rq_url := server_url c ++ "/health";
     rq_headers := []; rq_auth := None; rq_json := None; rq_timeout := Some 5 |}.

Definition tools_request (c : MCPClient) : http_request :=
  {| rq_method := "GET"; rq_url := server_url c ++ "/mcp/v1/tools";
     rq_headers := []; rq_auth := None; rq_json := None; rq_timeout := None |}.


(** What the client receives when the server wrapped an upstream 401 of the
    connector into a 200 envelope. *)
Definition wrapped_upstream_error : response :=
  {| status_code := 200; reason := "OK";
     url := "http://localhost:8000/mcp/v1/invoke";
     text := "";
     resp_json :=
       JsonBody (VDict [("result", VDict [("error", VStr "Unauthorized");
                                          ("status_code", VInt 401)]);
                        ("error", VNone)]) |}.

(** An issue document whose priority is null. *)
Definition issue_without_priority : pydict :=
  [("key", VStr "PROJ-1");
   ("fields", VDict [("summary", VStr "First");
                     ("status", VDict [("name", VStr "Open")]);
                     ("issuetype", VDict [("name", VStr "Bug")]);
                     ("priority", VNone)])].
(** * Properties *)

Unset Implicit Arguments.

(** ** Library functions on examples *)

Example quote_jql : quote (VStr "ORDER BY created DESC") = Ok "ORDER%20BY%20created%20DESC".
Proof. reflexivity. Qed.

Example str_of_Z_10 : str_of_Z 10 = "10" /\ str_of_Z (-3) = "-3" /\ str_of_Z 0 = "0".
Proof. repeat split; reflexivity. Qed.

Example last_segment_HR : last_segment "/rest/api/space/HR" = "HR".
Proof. reflexivity. Qed.

(** ** Registry and dispatch table *)

Lemma registry_names_eq :
  registry_names =
    ["jira_get_projects"; "jira_search_issues"; "jira_get_issue"; "jira_create_issue";
     "confluence_get_spaces"; "confluence_search"; "confluence_get_page"].
Proof. reflexivity. Qed.

Lemma handler_keys_eq (rt : runtime) (cfg : config) :
  map fst (TOOL_HANDLERS rt cfg) = registry_names.
Proof. reflexivity. Qed.

(** The seven ways a lookup in the dispatch table succeeds. *)
Lemma find_handler_cases (rt : runtime) (cfg : config) (s : string) (h : handler) :
  find_handler s (TOOL_HANDLERS rt cfg) = Some h ->
  (s = "jira_get_projects" /\ h = tool_jira_get_projects rt cfg) \/
  (s = "jira_search_issues" /\ h = tool_jira_search_issues rt cfg) \/
  (s = "jira_get_issue" /\ h = tool_jira_get_issue rt cfg) \/
  (s = "jira_create_issue" /\ h = tool_jira_create_issue rt cfg) \/
  (s = "confluence_get_spaces" /\ h = tool_confluence_get_spaces rt cfg) \/
  (s = "confluence_search" /\ h = tool_confluence_search rt cfg) \/
  (s = "confluence_get_page" /\ h = tool_confluence_get_page rt cfg).
Proof.
  unfold TOOL_HANDLERS; simpl.
  repeat match goal with
         | |- context [String.eqb s ?k] => destruct (String.eqb_spec s k)
         end; intros H; inversion H; subst; tauto.
Qed.

Lemma find_handler_in (t : list (string * handler)) (s : string) :
  In s (map fst t) <-> exists h, find_handler s t = Some h.
Proof.
  induction t as [|[k h] t IH]; simpl.
  - split; [tauto | intros [h H]; discriminate].
  - destruct (String.eqb_spec s k) as [->|Hne].
    + split; [intros _; eexists; reflexivity | auto].
    + rewrite <- IH. split; [intros [H|H]; [congruence | exact H] | auto].
Qed.

(** C9: the names published by the registry are exactly the keys of the
    dispatch table: there are seven advertised tools, every advertised name
    has a handler, and every key of the table is an advertised name. *)
Theorem C9_registry_matches_dispatch (rt : runtime) (cfg : config) :
  length TOOLS = 7%nat /\
  registry_names = map fst (TOOL_HANDLERS rt cfg) /\
  forall s, In s registry_names <-> exists h, find_handler s (TOOL_HANDLERS rt cfg) = Some h.
Proof.
  split; [reflexivity|]. split; [reflexivity|].
  intros s. rewrite <- (handler_keys_eq rt cfg). apply find_handler_in.
Qed.

(** ** Strings *)

Lemma prefixb_refl (s : string) : prefixb s s = true.
Proof.
  induction s as [|a s IH]; simpl; [reflexivity|].
  now rewrite Ascii.eqb_refl.
Qed.

Lemma prefixb_app (s t : string) : prefixb s (s ++ t) = true.
Proof.
  induction s as [|a s IH]; simpl; [reflexivity|].
  now rewrite Ascii.eqb_refl.
Qed.

Lemma substringb_refl (s : string) : substringb s s = true.
Proof. destruct s; simpl; [reflexivity|]. now rewrite Ascii.eqb_refl, prefixb_refl. Qed.

Lemma substringb_app_l (p s : string) : substringb s (p ++ s) = true.
Proof.
  induction p as [|a p IH]; simpl.
  - apply substringb_refl.
  - rewrite IH. apply orb_true_r.
Qed.

Lemma prefixb_app_r (s w u : string) :
  prefixb s w = true -> prefixb s (w ++ u) = true.
Proof.
  revert w. induction s as [|b s IH]; intros w; [reflexivity|].
  destruct w as [|c w]; simpl; [discriminate|].
  intros H. apply andb_true_iff in H. destruct H as [H1 H2].
  rewrite H1. simpl. now apply IH.
Qed.

Lemma substringb_app_r (s t u : string) :
  substringb s t = true -> substringb s (t ++ u) = true.
Proof.
  induction t as [|a t IH].
  - destruct s; simpl; [intros _|discriminate].
    destruct u; reflexivity.
  - intros H. simpl in H. apply orb_true_iff in H.
    change (String a t ++ u) with (String a (t ++ u)).
    cbn [substringb]. apply orb_true_iff. destruct H as [H|H].
    + left. apply (prefixb_app_r _ _ u H).
    + right. exact (IH H).
Qed.

Lemma rfile_read_0 (rt : runtime) (stream : string) : rfile_read rt 0 stream = Ok "".
Proof.
  unfold rfile_read. simpl. destruct (read_max rt); simpl; destruct stream; reflexivity.
Qed.

(** ** The invoke route *)

Section InvokeRoute.
Variable rt : runtime.
Variable cfg : config.

(** Where [do_POST] hands a decoded body to the invoke route. *)
Lemma do_POST_invoke
    (r : request) (log : list event) (n : Z) (bytes : string) (data : value) :
  urlparse_path rt (req_path r) = Ok "/mcp/v1/invoke" ->
  content_length rt r = Ok n ->
  rfile_read rt n (req_rfile r) = Ok bytes ->
  load_body rt bytes = Ok data ->
  do_POST rt cfg r log = invoke_tool rt cfg data log.
Proof.
  intros Hp Hn Hr Hb. unfold do_POST, bind, lift.
  rewrite Hp, Hn, Hr, Hb. reflexivity.
Qed.

Lemma do_POST_invalid_json
    (r : request) (log : list event) (p : string) (n : Z) (bytes m : string) :
  urlparse_path rt (req_path r) = Ok p ->
  content_length rt r = Ok n ->
  rfile_read rt n (req_rfile r) = Ok bytes ->
  load_body rt bytes = Raise (JSONDecodeError m) ->
  do_POST rt cfg r log = (Ok (_send_json (VDict [("error", VStr "Invalid JSON")]) 400), log).
Proof.
  intros Hp Hn Hr Hb. unfold do_POST, bind, lift. rewrite Hp, Hn, Hr, Hb. reflexivity.
Qed.

Lemma invoke_tool_no_name (d : pydict) (log : list event) :
  (assoc "name" d = None \/ exists v, assoc "name" d = Some v /\ truthy v = false) ->
  invoke_tool rt cfg (VDict d) log =
    (Ok (_send_json (VDict [("error", VStr "Tool name is required")]) 400), log).
Proof.
  intros H. unfold invoke_tool, bind, lift; simpl.
  destruct H as [H | [v [H Hv]]]; rewrite H; simpl; [|rewrite Hv]; reflexivity.
Qed.

Lemma invoke_tool_unknown (d : pydict) (v : value) (log : list event) :
  assoc "name" d = Some v ->
  truthy v = true ->
  handlers_get rt cfg v = Ok None ->
  invoke_tool rt cfg (VDict d) log =
    (Ok (_send_json (VDict [("error", VStr ("Unknown tool: " ++ py_str (py_repr rt) v))]) 404),
     (log ++ [EvLookup v])%list).
Proof.
  intros H Hv Hg. unfold invoke_tool, bind, lift, emit; simpl.
  rewrite H, Hv; simpl. rewrite Hg. reflexivity.
Qed.

Lemma invoke_tool_known (d : pydict) (s : string) (h : handler) (log : list event) :
  assoc "name" d = Some (VStr s) ->
  find_handler s (TOOL_HANDLERS rt cfg) = Some h ->
  let parameters := match assoc "parameters" d with Some p => p | None => VDict [] end in
  let log1 := (log ++ [EvLookup (VStr s)] ++ [EvInvoke (VStr s)])%list in
  invoke_tool rt cfg (VDict d) log =
    match h parameters log1 with
    | (Ok result, log2) =>
        (Ok (_send_json (VDict [("result", result); ("error", VNone)]) 200), log2)
    | (Raise e, log2) =>
        (Ok (_send_json (VDict [("result", VNone); ("error", VStr (exn_str rt e))]) 500), log2)
    end.
Proof.
  intros H Hf parameters log1.
  assert (Hs : truthy (VStr s) = true).
  { destruct s; [discriminate Hf | reflexivity]. }
  unfold invoke_tool, bind, lift, emit, try_except; simpl py_get; cbv iota beta.
  rewrite H, Hs. cbn [negb]. cbv iota beta. unfold handlers_get. rewrite Hf.
  cbv iota beta. subst log1 parameters. rewrite <- app_assoc. reflexivity.
Qed.

End InvokeRoute.

(** ** Protocol errors of the invoke route *)

(** C6: a POST to the invoke route whose body is empty or decodes to an
    object that has no "name" entry, or an empty (falsy) one, is answered
    with HTTP 400 and the body {"error": "Tool name is required"}: the error
    is a string, looking up "result" in the body yields None, and the event
    log is unchanged, so the dispatch table was not consulted. *)
Theorem C6_missing_tool_name
    (rt : runtime) (cfg : config) (r : request) (log : list event) (n : Z)
    (bytes : string) (d : pydict) :
  urlparse_path rt (req_path r) = Ok "/mcp/v1/invoke" ->
  content_length rt r = Ok n ->
  rfile_read rt n (req_rfile r) = Ok bytes ->
  load_body rt bytes = Ok (VDict d) ->
  (assoc "name" d = None \/ exists v, assoc "name" d = Some v /\ truthy v = false) ->
  exists resp envelope msg,
    do_POST rt cfg r log = (Ok resp, log) /\
    status resp = 400 /\
    body resp = Some envelope /\
    envelope = VDict [("error", VStr "Tool name is required")] /\
    py_get envelope "error" VNone = Ok (VStr msg) /\
    py_get envelope "result" VNone = Ok VNone.
Proof.
  intros Hp Hn Hr Hb Hname.
  rewrite (do_POST_invoke rt cfg r log n bytes (VDict d) Hp Hn Hr Hb).
  rewrite (invoke_tool_no_name rt cfg d log Hname).
  do 3 eexists. repeat split.
Qed.

Lemma C6_witness :
  exists resp envelope msg,
    do_POST (fixed_runtime (Ok (VDict [("name", VStr "")])) (Failed "unreachable"))
            demo_config
            (request_with_body "/mcp/v1/invoke" ("{" ++ jstr "name" ++ ": " ++ jstr "" ++ "}"))
            [] = (Ok resp, []) /\
    status resp = 400 /\
    body resp = Some envelope /\
    envelope = VDict [("error", VStr "Tool name is required")] /\
    py_get envelope "error" VNone = Ok (VStr msg) /\
    py_get envelope "result" VNone = Ok VNone.
Proof.
  apply (C6_missing_tool_name _ demo_config _ [] 12
           ("{" ++ jstr "name" ++ ": " ++ jstr "" ++ "}") [("name", VStr "")]).
  - reflexivity.
  - reflexivity.
  - reflexivity.
  - reflexivity.
  - right. exists (VStr ""). split; reflexivity.
Defined.

(** C6 as the specification words it fails on a body that is JSON but not an
    object: the body null has no tool-name field, yet the handler raises
    AttributeError on [data.get] and no response, so no 400, is written. *)
Lemma C6_null_body_gets_no_response :
  fst (do_POST (fixed_runtime (Ok VNone) (Failed "unreachable")) demo_config
               (request_with_body "/mcp/v1/invoke" "null") []) =
    Raise (AttributeError "NoneType" "get") /\
  status_of (do_POST (fixed_runtime (Ok VNone) (Failed "unreachable")) demo_config
                     (request_with_body "/mcp/v1/invoke" "null") []) <> Some 400.
Proof. split; [reflexivity | discriminate]. Qed.

(** C5: a POST to the invoke route whose "name" is non-empty and is found
    under no key of the dispatch table is answered with HTTP 404 and the
    error "Unknown tool: " followed by the name, which the error so contains
    as text; the only event is the lookup itself: no handler is called and
    no upstream request is made. *)
Theorem C5_unknown_tool
    (rt : runtime) (cfg : config) (r : request) (log : list event) (n : Z)
    (bytes : string) (d : pydict) (v : value) :
  urlparse_path rt (req_path r) = Ok "/mcp/v1/invoke" ->
  content_length rt r = Ok n ->
  rfile_read rt n (req_rfile r) = Ok bytes ->
  load_body rt bytes = Ok (VDict d) ->
  assoc "name" d = Some v ->
  truthy v = true ->
  handlers_get rt cfg v = Ok None ->
  exists resp envelope msg,
    do_POST rt cfg r log = (Ok resp, (log ++ [EvLookup v])%list) /\
    status resp = 404 /\
    body resp = Some envelope /\
    py_get envelope "error" VNone = Ok (VStr msg) /\
    msg = "Unknown tool: " ++ py_str (py_repr rt) v /\
    substringb (py_str (py_repr rt) v) msg = true /\
    filter is_invoke (snd (do_POST rt cfg r log)) = filter is_invoke log /\
    filter is_upstream (snd (do_POST rt cfg r log)) = filter is_upstream log.
Proof.
  intros Hp Hn Hr Hb Hname Hv Hg.
  rewrite (do_POST_invoke rt cfg r log n bytes (VDict d) Hp Hn Hr Hb).
  rewrite (invoke_tool_unknown rt cfg d v log Hname Hv Hg).
  do 3 eexists. repeat split.
  - apply substringb_app_l.
  - simpl snd. rewrite filter_app. simpl. apply app_nil_r.
  - simpl snd. rewrite filter_app. simpl. apply app_nil_r.
Qed.

Lemma C5_witness :
  exists resp envelope msg,
    do_POST (fixed_runtime (Ok (invoke_data "does_not_exist" (VDict []))) (Failed "unreachable"))
            demo_config
            (request_with_body "/mcp/v1/invoke" (invoke_body "does_not_exist" "{}"))
            [] = (Ok resp, [EvLookup (VStr "does_not_exist")]) /\
    status resp = 404 /\
    body resp = Some envelope /\
    py_get envelope "error" VNone = Ok (VStr msg) /\
    msg = "Unknown tool: does_not_exist" /\
    substringb "does_not_exist" msg = true /\
    filter is_invoke
      (snd (do_POST (fixed_runtime (Ok (invoke_data "does_not_exist" (VDict []))) (Failed "unreachable"))
                    demo_config
                    (request_with_body "/mcp/v1/invoke" (invoke_body "does_not_exist" "{}"))
                    [])) = [] /\
    filter is_upstream
      (snd (do_POST (fixed_runtime (Ok (invoke_data "does_not_exist" (VDict []))) (Failed "unreachable"))
                    demo_config
                    (request_with_body "/mcp/v1/invoke" (invoke_body "does_not_exist" "{}"))
                    [])) = [].
Proof.
  apply (C5_unknown_tool _ demo_config _ [] 44 (invoke_body "does_not_exist" "{}")
           [("name", VStr "does_not_exist"); ("parameters", VDict [])] (VStr "does_not_exist"));
    reflexivity.
Defined.

(** C10: a POST to the invoke route with Content-Length 0 is not sent to the
    JSON decoder: the empty body counts as the empty object, and the answer
    is HTTP 400 with the error "Tool name is required", not "Invalid JSON",
    also when the decoder would reject the empty document. *)
Theorem C10_empty_body_is_empty_object
    (rt : runtime) (cfg : config) (r : request) (log : list event) :
  urlparse_path rt (req_path r) = Ok "/mcp/v1/invoke" ->
  content_length rt r = Ok 0 ->
  rfile_read rt 0 (req_rfile r) = Ok "" /\
  load_body rt "" = Ok (VDict []) /\
  do_POST rt cfg r log =
    (Ok (_send_json (VDict [("error", VStr "Tool name is required")]) 400), log) /\
  do_POST rt cfg r log <>
    (Ok (_send_json (VDict [("error", VStr "Invalid JSON")]) 400), log).
Proof.
  intros Hp Hn.
  assert (Hb : load_body rt "" = Ok (VDict [])) by reflexivity.
  assert (Hr : do_POST rt cfg r log =
               (Ok (_send_json (VDict [("error", VStr "Tool name is required")]) 400), log)).
  { rewrite (do_POST_invoke rt cfg r log 0 "" (VDict []) Hp Hn (rfile_read_0 rt _) Hb).
    apply invoke_tool_no_name. left. reflexivity. }
  split; [apply rfile_read_0|]. split; [exact Hb|]. split; [exact Hr|].
  rewrite Hr. discriminate.
Qed.

Lemma C10_witness :
  json_loads (fixed_runtime (Raise (JSONDecodeError "Expecting value")) (Failed "unreachable")) ""
    = Raise (JSONDecodeError "Expecting value") /\
  do_POST (fixed_runtime (Raise (JSONDecodeError "Expecting value")) (Failed "unreachable"))
          demo_config (request_with_body "/mcp/v1/invoke" "") [] =
    (Ok (_send_json (VDict [("error", VStr "Tool name is required")]) 400), []).
Proof.
  split; [reflexivity|].
  apply (C10_empty_body_is_empty_object
           (fixed_runtime (Raise (JSONDecodeError "Expecting value")) (Failed "unreachable"))
           demo_config (request_with_body "/mcp/v1/invoke" "") []); reflexivity.
Defined.

(** ** Required parameters *)

Section RequiredParameters.
Variable rt : runtime.
Variable cfg : config.

Lemma py_get_absent_or_empty (k : string) (d : pydict) :
  absent_or_empty k d = true ->
  exists v, py_get (VDict d) k VNone = Ok v /\ truthy v = false.
Proof.
  unfold absent_or_empty, py_get. destruct (assoc k d) as [v|].
  - intros H. exists v. split; [reflexivity|]. now destruct (truthy v).
  - intros _. exists VNone. split; reflexivity.
Qed.

Lemma get_issue_requires_issue_key (d : pydict) (log : list event) :
  absent_or_empty "issue_key" d = true ->
  tool_jira_get_issue rt cfg (VDict d) log =
    (Ok (required_error "issue_key is required"), log).
Proof.
  intros H. destruct (py_get_absent_or_empty _ _ H) as [v [Hg Hv]].
  unfold tool_jira_get_issue, bind, lift. rewrite Hg, Hv. reflexivity.
Qed.

Lemma get_page_requires_page_id (d : pydict) (log : list event) :
  absent_or_empty "page_id" d = true ->
  tool_confluence_get_page rt cfg (VDict d) log =
    (Ok (required_error "page_id is required"), log).
Proof.
  intros H. destruct (py_get_absent_or_empty _ _ H) as [v [Hg Hv]].
  unfold tool_confluence_get_page, bind, lift. rewrite Hg, Hv. reflexivity.
Qed.

Lemma search_requires_query (d : pydict) (log : list event) :
  absent_or_empty "query" d = true ->
  tool_confluence_search rt cfg (VDict d) log =
    (Ok (required_error "query is required"), log).
Proof.
  intros H. destruct (py_get_absent_or_empty _ _ H) as [v [Hg Hv]].
  unfold tool_confluence_search, bind, lift. rewrite Hg, Hv. reflexivity.
Qed.

Lemma create_issue_requires_both (d : pydict) (log : list event) :
  absent_or_empty "project_key" d = true \/ absent_or_empty "summary" d = true ->
  tool_jira_create_issue rt cfg (VDict d) log =
    (Ok (required_error "project_key and summary are required"), log).
Proof.
  intros H. unfold tool_jira_create_issue, bind, lift. simpl py_get. cbv iota beta.
  assert (Hc : negb (truthy (match assoc "project_key" d with Some x => x | None => VNone end))
               || negb (truthy (match assoc "summary" d with Some x => x | None => VNone end))
               = true).
  { unfold absent_or_empty in H. apply orb_true_iff.
    destruct H as [H|H]; [left|right];
      match goal with
      | H : match assoc ?k d with _ => _ end = true |- _ =>
          destruct (assoc k d); [exact H | reflexivity]
      end. }
  rewrite Hc. reflexivity.
Qed.

End RequiredParameters.

(** C4: for every tool of the registry and every parameter its descriptor
    declares as required, calling the tool's handler with a parameter mapping
    in which that parameter is absent or empty returns {"error": msg} with
    the parameter's name inside msg, and leaves the event log as it was: no
    upstream HTTP request is made. *)
Theorem C4_required_parameter_checked
    (rt : runtime) (cfg : config) (t : value) (p : string) (h : handler)
    (d : pydict) (log : list event) :
  In t TOOLS ->
  In p (required_parameters t) ->
  find_handler (descriptor_name t) (TOOL_HANDLERS rt cfg) = Some h ->
  absent_or_empty p d = true ->
  exists msg,
    h (VDict d) log = (Ok (VDict [("error", VStr msg)]), log) /\
    substringb p msg = true /\
    upstream_calls (snd (h (VDict d) log)) = upstream_calls log.
Proof.
  intros Ht Hp Hh Hd.
  assert (Hgoal : exists msg,
            h (VDict d) log = (Ok (VDict [("error", VStr msg)]), log) /\
            substringb p msg = true).
  { simpl in Ht.
    repeat (destruct Ht as [Ht|Ht]; [subst t; simpl in Hp, Hh|]); try contradiction;
      repeat (destruct Hp as [Hp|Hp]; [subst p|]); try contradiction;
      inversion Hh; subst h; clear Hh; eexists.
    - split; [apply get_issue_requires_issue_key; exact Hd | reflexivity].
    - split; [apply create_issue_requires_both; left; exact Hd | reflexivity].
    - split; [apply create_issue_requires_both; right; exact Hd | reflexivity].
    - split; [apply search_requires_query; exact Hd | reflexivity].
    - split; [apply get_page_requires_page_id; exact Hd | reflexivity]. }
  destruct Hgoal as [msg [H1 H2]]. exists msg. rewrite H1. repeat split; assumption.
Qed.

Lemma C4_witness :
  exists msg,
    tool_jira_create_issue (fixed_runtime (Ok VNone) (Failed "unreachable")) demo_config
      (VDict [("summary", VStr "Title"); ("project_key", VStr "")]) [] =
      (Ok (VDict [("error", VStr msg)]), []) /\
    substringb "project_key" msg = true /\
    upstream_calls
      (snd (tool_jira_create_issue (fixed_runtime (Ok VNone) (Failed "unreachable")) demo_config
              (VDict [("summary", VStr "Title"); ("project_key", VStr "")]) [])) =
      upstream_calls [].
Proof.
  apply (C4_required_parameter_checked
           (fixed_runtime (Ok VNone) (Failed "unreachable")) demo_config
           (tool_descriptor "jira_create_issue" "Create a new Jira issue"
              [parameter_spec "project_key" "string" "Project key (e.g., PROJ)" true;
               parameter_spec "summary" "string" "Issue summary/title" true;
               parameter_spec "issue_type" "string" "Issue type (Task, Bug, Story)" false;
               parameter_spec "description" "string" "Issue description" false])
           "project_key").
  - simpl. tauto.
  - simpl. tauto.
  - reflexivity.
  - reflexivity.
Defined.

(** ** Connector errors inside the envelope *)

(** C2, as the code has it: invoking jira_create_issue over the invoke route
    with a parameter mapping that has no project_key (such as
    {"summary": "Title"}) is answered with HTTP 200; the envelope's result
    is the connector's mapping {"error": "project_key and summary are
    required"} and the envelope's error is None.  The handler is looked up
    and called, and no upstream request is made. *)
Theorem C2_create_issue_without_project_key
    (rt : runtime) (cfg : config) (r : request) (log : list event) (n : Z)
    (bytes : string) (d ps : pydict) :
  urlparse_path rt (req_path r) = Ok "/mcp/v1/invoke" ->
  content_length rt r = Ok n ->
  rfile_read rt n (req_rfile r) = Ok bytes ->
  load_body rt bytes = Ok (VDict d) ->
  assoc "name" d = Some (VStr "jira_create_issue") ->
  assoc "parameters" d = Some (VDict ps) ->
  assoc "project_key" ps = None ->
  exists resp envelope,
    do_POST rt cfg r log =
      (Ok resp,
       (log ++ [EvLookup (VStr "jira_create_issue")] ++ [EvInvoke (VStr "jira_create_issue")])%list) /\
    status resp = 200 /\
    body resp = Some envelope /\
    py_get envelope "result" VNone =
      Ok (VDict [("error", VStr "project_key and summary are required")]) /\
    py_get envelope "error" VNone = Ok VNone.
Proof.
  intros Hp Hn Hr Hb Hname Hps Hkey.
  rewrite (do_POST_invoke rt cfg r log n bytes (VDict d) Hp Hn Hr Hb).
  rewrite (invoke_tool_known rt cfg d "jira_create_issue"
             (tool_jira_create_issue rt cfg) log Hname eq_refl).
  rewrite Hps.
  rewrite create_issue_requires_both
    by (left; unfold absent_or_empty; rewrite Hkey; reflexivity).
  do 2 eexists. repeat split.
Qed.

Lemma C2_witness :
  exists resp envelope,
    do_POST (fixed_runtime
               (Ok (invoke_data "jira_create_issue" (VDict [("summary", VStr "Title")])))
               (Failed "unreachable"))
            demo_config
            (request_with_body "/mcp/v1/invoke"
               (invoke_body "jira_create_issue" ("{" ++ jstr "summary" ++ ": " ++ jstr "Title" ++ "}")))
            [] =
      (Ok resp, [EvLookup (VStr "jira_create_issue"); EvInvoke (VStr "jira_create_issue")]) /\
    status resp = 200 /\
    body resp = Some envelope /\
    py_get envelope "result" VNone =
      Ok (VDict [("error", VStr "project_key and summary are required")]) /\
    py_get envelope "error" VNone = Ok VNone.
Proof.
  apply (C2_create_issue_without_project_key _ demo_config _ [] 65
           (invoke_body "jira_create_issue" ("{" ++ jstr "summary" ++ ": " ++ jstr "Title" ++ "}"))
           [("name", VStr "jira_create_issue"); ("parameters", VDict [("summary", VStr "Title")])]
           [("summary", VStr "Title")]); reflexivity.
Defined.

(** C2 as the specification words it fails on the request of the scenario:
    the envelope's error is None, not the message, and its result is not None. *)
Lemma C2_envelope_error_is_null :
  exists resp envelope,
    fst (do_POST (fixed_runtime
                    (Ok (invoke_data "jira_create_issue" (VDict [("summary", VStr "Title")])))
                    (Failed "unreachable"))
                 demo_config
                 (request_with_body "/mcp/v1/invoke"
                    (invoke_body "jira_create_issue"
                       ("{" ++ jstr "summary" ++ ": " ++ jstr "Title" ++ "}")))
                 []) = Ok resp /\
    status resp = 200 /\
    body resp = Some envelope /\
    py_get envelope "error" VNone <> Ok (VStr "project_key and summary are required") /\
    py_get envelope "result" VNone <> Ok VNone.
Proof.
  do 2 eexists. split; [reflexivity|]. split; [reflexivity|]. split; [reflexivity|].
  split; discriminate.
Qed.

(** ** The discovery route *)

Lemma do_GET_tools (rt : runtime) (r : request) :
  urlparse_path rt (req_path r) = Ok "/mcp/v1/tools" ->
  do_GET rt r = Ok (_send_json (VDict [("tools", VList TOOLS)]) 200).
Proof. intros H. unfold do_GET. rewrite H. reflexivity. Qed.

Lemma handle_one_request_returns
    (rt : runtime) (cfg : config) (m : http_method) (r : request) (log : list event) :
  exists resp log', handle_one_request rt cfg m r log = (Ok resp, log').
Proof.
  destruct m; simpl; unfold ret; try (do 2 eexists; reflexivity).
  destruct (do_POST rt cfg r log) as [[resp|e] log']; do 2 eexists; reflexivity.
Qed.

Lemma serve_forever_returns
    (rt : runtime) (cfg : config) (reqs : list (http_method * request)) :
  forall log, exists resps log', serve_forever rt cfg reqs log = (Ok resps, log').
Proof.
  induction reqs as [|[m r] reqs IH]; intros log; simpl.
  - do 2 eexists; reflexivity.
  - unfold bind.
    destruct (handle_one_request_returns rt cfg m r log) as [resp [log1 H1]]. rewrite H1.
    destruct (IH log1) as [resps [log2 H2]]. rewrite H2.
    do 2 eexists; reflexivity.
Qed.

Lemma serve_forever_tools
    (rt : runtime) (cfg : config) (reqs : list (http_method * request)) :
  forall (log : list event) (i : nat) (r : request),
    nth_error reqs i = Some (GET, r) ->
    urlparse_path rt (req_path r) = Ok "/mcp/v1/tools" ->
    exists resps log',
      serve_forever rt cfg reqs log = (Ok resps, log') /\
      nth_error resps i = Some (Some (_send_json (VDict [("tools", VList TOOLS)]) 200)).
Proof.
  induction reqs as [|[m q] reqs IH]; intros log i r Hi Hp.
  - destruct i; discriminate.
  - simpl. unfold bind. destruct i as [|i]; simpl in Hi.
    + inversion Hi; subst m q. simpl. unfold ret.
      destruct (serve_forever_returns rt cfg reqs log) as [resps [log2 H2]]. rewrite H2.
      do 2 eexists. split; [reflexivity|]. simpl. now rewrite (do_GET_tools rt r Hp).
    + destruct (handle_one_request_returns rt cfg m q log) as [resp [log1 H1]]. rewrite H1.
      destruct (IH log1 i r Hi Hp) as [resps [log2 [H2 H3]]]. rewrite H2.
      do 2 eexists. split; [reflexivity|]. exact H3.
Qed.

(** C8: whatever requests the server has handled before, and wherever in the
    sequence of requests it comes, a GET of /mcp/v1/tools is answered with
    HTTP 200 and the body {"tools": TOOLS}; the descriptors are listed in
    the order the registry defines them. *)
Theorem C8_tools_listing_stable
    (rt : runtime) (cfg : config) (reqs : list (http_method * request))
    (log : list event) (i : nat) (r : request) :
  nth_error reqs i = Some (GET, r) ->
  urlparse_path rt (req_path r) = Ok "/mcp/v1/tools" ->
  exists resps log' resp,
    serve_forever rt cfg reqs log = (Ok resps, log') /\
    nth_error resps i = Some (Some resp) /\
    status resp = 200 /\
    body resp = Some (VDict [("tools", VList TOOLS)]) /\
    map descriptor_name TOOLS =
      ["jira_get_projects"; "jira_search_issues"; "jira_get_issue"; "jira_create_issue";
       "confluence_get_spaces"; "confluence_search"; "confluence_get_page"].
Proof.
  intros Hi Hp.
  destruct (serve_forever_tools rt cfg reqs log i r Hi Hp) as [resps [log' [H1 H2]]].
  exists resps, log'. eexists. split; [exact H1|]. split; [exact H2|]. repeat split.
Qed.

Lemma C8_witness :
  exists resps log' resp,
    serve_forever
      (fixed_runtime (Ok (invoke_data "jira_get_projects" (VDict []))) (Failed "connection refused"))
      demo_config
      [(GET, request_with_body "/mcp/v1/tools" "");
       (POST, request_with_body "/mcp/v1/invoke" (invoke_body "jira_get_projects" "{}"));
       (GET, request_with_body "/mcp/v1/tools" "")]
      [] = (Ok resps, log') /\
    nth_error resps 2 = Some (Some resp) /\
    status resp = 200 /\
    body resp = Some (VDict [("tools", VList TOOLS)]) /\
    map descriptor_name TOOLS =
      ["jira_get_projects"; "jira_search_issues"; "jira_get_issue"; "jira_create_issue";
       "confluence_get_spaces"; "confluence_search"; "confluence_get_page"].
Proof.
  apply (C8_tools_listing_stable _ demo_config _ [] 2 (request_with_body "/mcp/v1/tools" ""));
    reflexivity.
Defined.

(** ** The client *)

Section ClientProperties.
Variable rt : runtime.
Variable requests_call : http_request -> transport.

Lemma raise_for_status_cases (r : response) :
  (raise_for_status r = Ok tt /\
   (400 <=? status_code r) && (status_code r <? 600) = false) \/
  (exists msg, raise_for_status r = Raise (HTTPError msg) /\
   (400 <=? status_code r) && (status_code r <? 600) = true).
Proof.
  unfold raise_for_status.
  destruct ((400 <=? status_code r) && (status_code r <? 500)) eqn:H4.
  - right. eexists. split; [reflexivity|].
    apply andb_true_iff in H4. destruct H4 as [Ha Hb].
    apply andb_true_iff. split; [exact Ha|]. apply Z.ltb_lt. apply Z.ltb_lt in Hb. lia.
  - destruct ((500 <=? status_code r) && (status_code r <? 600)) eqn:H5.
    + right. eexists. split; [reflexivity|].
      apply andb_true_iff in H5. destruct H5 as [Ha Hb].
      apply andb_true_iff. split; [|exact Hb]. apply Z.leb_le. apply Z.leb_le in Ha. lia.
    + left. split; [reflexivity|].
      apply andb_false_iff. apply andb_false_iff in H4. apply andb_false_iff in H5.
      rewrite Z.leb_gt, Z.ltb_ge in *. lia.
Qed.

Lemma raise_for_status_ok (r : response) :
  error_status (status_code r) = false -> raise_for_status r = Ok tt.
Proof.
  intros H. destruct (raise_for_status_cases r) as [[H1 _]|[m [_ H2]]]; [exact H1|].
  unfold error_status in H. congruence.
Qed.

Lemma raise_for_status_error (r : response) :
  error_status (status_code r) = true ->
  raise_for_status r = Raise (HTTPError (http_error_message r)).
Proof.
  unfold error_status, raise_for_status, http_error_message. intros H.
  apply andb_true_iff in H. destruct H as [Ha Hb]. rewrite Ha. simpl.
  destruct (status_code r <? 500) eqn:H5; [reflexivity|].
  rewrite Hb. apply Z.ltb_ge in H5. apply Z.leb_le in H5. rewrite H5. reflexivity.
Qed.

(** What [invoke] makes of a response. *)
Lemma invoke_by_status (c : MCPClient) (tool_name parameters : value) (r : response) :
  requests_call (invoke_request c tool_name parameters) = Responded r ->
  invoke rt requests_call c tool_name parameters =
    if error_status (status_code r)
    then Ok (VDict [("error", VStr (http_error_message r)); ("result", VNone)])
    else match resp_json r with
         | JsonBody v => Ok v
         | NotJson m => Ok (VDict [("error", VStr m); ("result", VNone)])
         end.
Proof.
  intros Hr. unfold invoke, call, except_RequestException. rewrite Hr. simpl.
  destruct (error_status (status_code r)) eqn:Hs.
  - rewrite (raise_for_status_error r Hs). reflexivity.
  - rewrite (raise_for_status_ok r Hs). simpl. unfold response_json.
    destruct (resp_json r); reflexivity.
Qed.

(** What [invoke] makes of an exception that leaves the POST. *)
Lemma invoke_by_exception (c : MCPClient) (tool_name parameters : value) (e : exn) :
  call requests_call (invoke_request c tool_name parameters) = Raise e ->
  invoke rt requests_call c tool_name parameters =
    if is_RequestException e
    then Ok (VDict [("error", VStr (exn_str rt e)); ("result", VNone)])
    else Raise e.
Proof.
  intros He. unfold invoke, except_RequestException. rewrite He. reflexivity.
Qed.

Lemma invoke_failure (c : MCPClient) (tool_name parameters : value) :
  transport_failure (requests_call (invoke_request c tool_name parameters)) = true ->
  exists msg,
    invoke rt requests_call c tool_name parameters =
      Ok (VDict [("error", VStr msg); ("result", VNone)]).
Proof.
  unfold transport_failure.
  destruct (requests_call (invoke_request c tool_name parameters)) as [r|msg|e] eqn:Hc.
  - intros Hs. rewrite (invoke_by_status c tool_name parameters r Hc).
    unfold error_status. rewrite Hs. eexists; reflexivity.
  - intros _. rewrite (invoke_by_exception c tool_name parameters (RequestException msg)).
    + eexists; reflexivity.
    + unfold call. rewrite Hc. reflexivity.
  - intros He. rewrite (invoke_by_exception c tool_name parameters e).
    + rewrite He. eexists; reflexivity.
    + unfold call. rewrite Hc. reflexivity.
Qed.


End ClientProperties.




(** ** Connectors and upstream responses *)

Lemma log_neq_app (log : list event) (ev : event) : log <> (log ++ [ev])%list.
Proof.
  intros H. apply (f_equal (@length event)) in H.
  rewrite length_app in H. simpl in H. lia.
Qed.

Lemma log_app_inj (log : list event) (rq rq' : http_request) :
  (log ++ [EvUpstream rq'])%list = (log ++ [EvUpstream rq])%list -> rq' = rq.
Proof. intros H. apply app_inv_head in H. now inversion H. Qed.

(** Runs a connector symbolically up to its upstream call: parameter
    handling that raises or returns early leaves the log as it was, which
    contradicts a hypothesis [snd _ = log ++ [EvUpstream rq]]. *)
Ltac to_upstream H :=
  unfold bind, lift, ret, jira_request, confluence_request, send in H |- *;
  repeat match type of H with
         | context [match py_get ?a ?b ?c with _ => _ end] =>
             let E := fresh "E" in destruct (py_get a b c) eqn:E; simpl in H |- *
         | context [match quote ?a with _ => _ end] =>
             let E := fresh "E" in destruct (quote a) eqn:E; simpl in H |- *
         | context [if negb ?b then _ else _] =>
             let E := fresh "E" in destruct b eqn:E; simpl in H |- *
         | context [if (negb ?a || negb ?b) then _ else _] =>
             let E := fresh "E" in destruct (negb a || negb b) eqn:E; simpl in H |- *
         end;
  try (exfalso; apply (log_neq_app _ _ H)).

(** The request a connector sent is the one the log records. *)
Ltac sent_request rt log rq H Hq :=
  match type of H with
  | context [requests_request rt log ?q] =>
      assert (Hq : q = rq);
      [ destruct (requests_request rt log q); simpl in H;
        repeat match type of H with
               | context [if ?b then _ else _] => destruct b; simpl in H
               end;
        apply log_app_inj in H; exact H
      | rewrite Hq in * ]
  end.

Section ConnectorErrors.
Variable rt : runtime.
Variable cfg : config.

(** A connector that reached the upstream service and got a response with
    a status it does not take as success returns the error mapping. *)
Lemma connector_upstream_error
    (s : string) (h : handler) (params : value) (log : list event)
    (rq : http_request) (resp : response) :
  find_handler s (TOOL_HANDLERS rt cfg) = Some h ->
  snd (h params log) = (log ++ [EvUpstream rq])%list ->
  requests_request rt log rq = Responded resp ->
  success_status s (status_code resp) = false ->
  h params log = (Ok (error_result resp), (log ++ [EvUpstream rq])%list).
Proof.
  intros Hf Hlog Hresp Hst.
  unfold success_status in Hst. apply orb_false_iff in Hst. destruct Hst as [H200 H201].
  destruct (find_handler_cases rt cfg s h Hf)
    as [[-> ->]|[[-> ->]|[[-> ->]|[[-> ->]|[[-> ->]|[[-> ->]|[-> ->]]]]]]];
    simpl in H201.
  - unfold tool_jira_get_projects in *. to_upstream Hlog.
    sent_request rt log rq Hlog Hq. rewrite Hresp, H200. reflexivity.
  - unfold tool_jira_search_issues in *. to_upstream Hlog.
    sent_request rt log rq Hlog Hq. rewrite Hresp, H200. reflexivity.
  - unfold tool_jira_get_issue in *. to_upstream Hlog.
    sent_request rt log rq Hlog Hq. rewrite Hresp, H200. reflexivity.
  - unfold tool_jira_create_issue in *. to_upstream Hlog.
    sent_request rt log rq Hlog Hq. rewrite Hresp, H200, H201. reflexivity.
  - unfold tool_confluence_get_spaces in *. to_upstream Hlog.
    sent_request rt log rq Hlog Hq. rewrite Hresp, H200. reflexivity.
  - unfold tool_confluence_search in *. to_upstream Hlog.
    sent_request rt log rq Hlog Hq. rewrite Hresp, H200. reflexivity.
  - unfold tool_confluence_get_page in *. to_upstream Hlog.
    sent_request rt log rq Hlog Hq. rewrite Hresp, H200. reflexivity.
Qed.
End ConnectorErrors.

(** ** Status codes of the invoke route *)

(** C1, as the code has it: for a POST to the invoke route whose body has
    been read, the response status is 400 when the decoder rejects the body
    with JSONDecodeError and when the body decodes to an object that has no
    "name"; 404 when the name is a non-empty string that is no key of the
    dispatch table; 500 when the handler found under the name raises; 200
    when the handler returns, with the returned value as the envelope's
    result and a null error.  In particular, when the connector reached the
    upstream service and was answered with a status it does not take as
    success, the response is 200 and the upstream body and status sit
    inside the envelope's result, the envelope's error being None. *)
Theorem C1_invoke_status
    (rt : runtime) (cfg : config) (r : request) (log : list event) (n : Z)
    (bytes : string) :
  urlparse_path rt (req_path r) = Ok "/mcp/v1/invoke" ->
  content_length rt r = Ok n ->
  rfile_read rt n (req_rfile r) = Ok bytes ->
  let out := do_POST rt cfg r log in
  (forall m, json_loads rt bytes = Raise (JSONDecodeError m) -> status_of out = Some 400) /\
  (forall d, load_body rt bytes = Ok (VDict d) -> assoc "name" d = None ->
     status_of out = Some 400) /\
  (forall d s, load_body rt bytes = Ok (VDict d) -> assoc "name" d = Some (VStr s) ->
     s <> "" -> find_handler s (TOOL_HANDLERS rt cfg) = None ->
     status_of out = Some 404) /\
  (forall d s h, load_body rt bytes = Ok (VDict d) -> assoc "name" d = Some (VStr s) ->
     find_handler s (TOOL_HANDLERS rt cfg) = Some h ->
     let parameters := match assoc "parameters" d with Some p => p | None => VDict [] end in
     let log1 := (log ++ [EvLookup (VStr s)] ++ [EvInvoke (VStr s)])%list in
     (forall e, fst (h parameters log1) = Raise e ->
        exists resp,
          fst out = Ok resp /\ status resp = 500 /\
          body resp = Some (VDict [("result", VNone); ("error", VStr (exn_str rt e))])) /\
     (forall result, fst (h parameters log1) = Ok result ->
        exists resp,
          fst out = Ok resp /\ status resp = 200 /\
          body resp = Some (VDict [("result", result); ("error", VNone)])) /\
     (forall rq upstream,
        snd (h parameters log1) = (log1 ++ [EvUpstream rq])%list ->
        requests_request rt log1 rq = Responded upstream ->
        success_status s (status_code upstream) = false ->
        exists resp,
          fst out = Ok resp /\ status resp = 200 /\
          body resp =
            Some (VDict [("result", VDict [("error", VStr (text upstream));
                                           ("status_code", VInt (status_code upstream))]);
                         ("error", VNone)]))).
Proof.
  intros Hp Hn Hr out. subst out.
  split; [|split; [|split]].
  - intros m Hm. destruct (String.eqb_spec bytes "") as [He|He].
    + assert (Hb : load_body rt bytes = Ok (VDict [])).
      { unfold load_body. rewrite He. reflexivity. }
      rewrite (do_POST_invoke rt cfg r log n bytes (VDict []) Hp Hn Hr Hb).
      rewrite invoke_tool_no_name by (left; reflexivity). reflexivity.
    + assert (Hb : load_body rt bytes = Raise (JSONDecodeError m)).
      { unfold load_body. apply String.eqb_neq in He. rewrite He. exact Hm. }
      rewrite (do_POST_invalid_json rt cfg r log _ n bytes m Hp Hn Hr Hb). reflexivity.
  - intros d Hb Hname.
    rewrite (do_POST_invoke rt cfg r log n bytes (VDict d) Hp Hn Hr Hb).
    rewrite invoke_tool_no_name by (left; exact Hname). reflexivity.
  - intros d s Hb Hname Hs Hf.
    rewrite (do_POST_invoke rt cfg r log n bytes (VDict d) Hp Hn Hr Hb).
    rewrite (invoke_tool_unknown rt cfg d (VStr s) log Hname).
    + reflexivity.
    + simpl. apply String.eqb_neq in Hs. now rewrite Hs.
    + unfold handlers_get. now rewrite Hf.
  - intros d s h Hb Hname Hf parameters log1.
    rewrite (do_POST_invoke rt cfg r log n bytes (VDict d) Hp Hn Hr Hb).
    rewrite (invoke_tool_known rt cfg d s h log Hname Hf).
    fold parameters. fold log1.
    split; [|split].
    + intros e He. destruct (h parameters log1) as [[v|e'] log2]; simpl in He.
      * discriminate.
      * inversion He; subst. eexists. repeat split.
    + intros result Hres. destruct (h parameters log1) as [[v|e'] log2]; simpl in Hres.
      * inversion Hres; subst. eexists. repeat split.
      * discriminate.
    + intros rq upstream Hlog Hresp Hst.
      rewrite (connector_upstream_error rt cfg s h parameters log1 rq upstream
                 Hf Hlog Hresp Hst).
      eexists. repeat split.
Qed.

Lemma C1_witness :
  (* malformed JSON *)
  status_of (do_POST (fixed_runtime (Raise (JSONDecodeError "Expecting value")) (Failed "unreachable"))
                     demo_config (request_with_body "/mcp/v1/invoke" "{") []) = Some 400 /\
  (* unknown tool *)
  status_of (do_POST (fixed_runtime (Ok (invoke_data "does_not_exist" (VDict []))) (Failed "unreachable"))
                     demo_config
                     (request_with_body "/mcp/v1/invoke" (invoke_body "does_not_exist" "{}"))
                     []) = Some 404 /\
  (* the handler raises: the upstream cannot be reached *)
  (exists resp,
     fst (do_POST (fixed_runtime (Ok (invoke_data "jira_get_projects" (VDict []))) (Failed "timed out"))
                  demo_config
                  (request_with_body "/mcp/v1/invoke" (invoke_body "jira_get_projects" "{}"))
                  []) = Ok resp /\
     status resp = 500 /\
     body resp = Some (VDict [("result", VNone); ("error", VStr "timed out")])) /\
  (* the upstream answers 401 *)
  (exists resp,
     fst (do_POST (fixed_runtime (Ok (invoke_data "jira_get_projects" (VDict [])))
                     (Responded (upstream_response 401 "Unauthorized" (NotJson "Expecting value"))))
                  demo_config
                  (request_with_body "/mcp/v1/invoke" (invoke_body "jira_get_projects" "{}"))
                  []) = Ok resp /\
     status resp = 200 /\
     body resp =
       Some (VDict [("result", VDict [("error", VStr "Unauthorized"); ("status_code", VInt 401)]);
                    ("error", VNone)])).
Proof.
  split; [|split; [|split]].
  - pose proof (C1_invoke_status
                  (fixed_runtime (Raise (JSONDecodeError "Expecting value")) (Failed "unreachable"))
                  demo_config (request_with_body "/mcp/v1/invoke" "{") [] 1 "{"
                  eq_refl eq_refl eq_refl) as H.
    cbv zeta in H. destruct H as [H _]. apply (H "Expecting value"). reflexivity.
  - pose proof (C1_invoke_status
                  (fixed_runtime (Ok (invoke_data "does_not_exist" (VDict []))) (Failed "unreachable"))
                  demo_config
                  (request_with_body "/mcp/v1/invoke" (invoke_body "does_not_exist" "{}")) [] 44
                  (invoke_body "does_not_exist" "{}")
                  eq_refl eq_refl eq_refl) as H.
    cbv zeta in H. destruct H as [_ [_ [H _]]].
    apply (H [("name", VStr "does_not_exist"); ("parameters", VDict [])] "does_not_exist");
      [reflexivity | reflexivity | discriminate | reflexivity].
  - pose proof (C1_invoke_status
                  (fixed_runtime (Ok (invoke_data "jira_get_projects" (VDict []))) (Failed "timed out"))
                  demo_config
                  (request_with_body "/mcp/v1/invoke" (invoke_body "jira_get_projects" "{}")) [] 47
                  (invoke_body "jira_get_projects" "{}")
                  eq_refl eq_refl eq_refl) as H.
    cbv zeta in H. destruct H as [_ [_ [_ H]]].
    destruct (H [("name", VStr "jira_get_projects"); ("parameters", VDict [])]
                "jira_get_projects" _ eq_refl eq_refl eq_refl) as [H500 _].
    apply (H500 (RequestException "timed out")). reflexivity.
  - pose proof (C1_invoke_status
                  (fixed_runtime (Ok (invoke_data "jira_get_projects" (VDict [])))
                     (Responded (upstream_response 401 "Unauthorized" (NotJson "Expecting value"))))
                  demo_config
                  (request_with_body "/mcp/v1/invoke" (invoke_body "jira_get_projects" "{}")) [] 47
                  (invoke_body "jira_get_projects" "{}")
                  eq_refl eq_refl eq_refl) as H.
    cbv zeta in H. destruct H as [_ [_ [_ H]]].
    destruct (H [("name", VStr "jira_get_projects"); ("parameters", VDict [])]
                "jira_get_projects" _ eq_refl eq_refl eq_refl) as [_ [_ Hup]].
    eapply (Hup _ (upstream_response 401 "Unauthorized" (NotJson "Expecting value")));
      reflexivity.
Defined.

(** C1 as the specification words it fails on two kinds of body.  A body
    that is valid JSON but not an object, such as [], has no name field, yet
    the handler raises AttributeError on [data.get] and writes no response.
    A body that is not valid UTF-8 is malformed JSON, yet [json.loads]
    raises UnicodeDecodeError, which [except json.JSONDecodeError] does not
    catch, and again no response is written. *)
Lemma C1_bodies_without_response :
  fst (do_POST (fixed_runtime (Ok (VList [])) (Failed "unreachable")) demo_config
               (request_with_body "/mcp/v1/invoke" "[]") []) =
    Raise (AttributeError "list" "get") /\
  status_of (do_POST (fixed_runtime (Ok (VList [])) (Failed "unreachable")) demo_config
                     (request_with_body "/mcp/v1/invoke" "[]") []) <> Some 400 /\
  fst (do_POST (fixed_runtime
                  (Raise (DecodeFailure "'utf-8' codec can't decode byte 0xff in position 0: invalid start byte"))
                  (Failed "unreachable")) demo_config
               (request_with_body "/mcp/v1/invoke" (String (ascii_of_N 255) EmptyString)) []) =
    Raise (DecodeFailure "'utf-8' codec can't decode byte 0xff in position 0: invalid start byte") /\
  status_of (do_POST (fixed_runtime
                        (Raise (DecodeFailure "'utf-8' codec can't decode byte 0xff in position 0: invalid start byte"))
                        (Failed "unreachable")) demo_config
                     (request_with_body "/mcp/v1/invoke" (String (ascii_of_N 255) EmptyString))
                     []) <> Some 400.
Proof. repeat split; discriminate. Qed.

(** ** Normalising a well-shaped upstream document *)

Lemma map_res_forallb {A B : Type} (f : A -> res B) (shape : A -> bool) (l : list A) :
  (forall x, shape x = true -> exists y, f x = Ok y) ->
  forallb shape l = true ->
  exists ys, map_res f l = Ok ys.
Proof.
  intros Hf. induction l as [|x l IH]; simpl.
  - intros _. eexists; reflexivity.
  - intros H. apply andb_true_iff in H. destruct H as [Hx Hl].
    destruct (Hf x Hx) as [y Hy]. destruct (IH Hl) as [ys Hys].
    rewrite Hy, Hys. eexists; reflexivity.
Qed.

(** Case analysis on every lookup, and every value, a shape hypothesis
    inspects. *)
Ltac shape_cases H :=
  repeat match type of H with
         | context [assoc ?k ?d] =>
             let E := fresh "E" in
             destruct (assoc k d) as [?|] eqn:E; simpl in H; try discriminate H
         | context [match ?v with _ => _ end] =>
             is_var v;
             lazymatch type of v with value => idtac end;
             destruct v; simpl in H; try discriminate H
         end.

Ltac expose H :=
  unfold has_keys, named, optional_object, has_key in H; simpl in H;
  unfold bindR, py_getitem, py_get, py_contains, py_split_last, has_key,
    isinstance_dict; simpl.

Section Normalisation.
Variable rt : runtime.

Lemma project_entry_ok (p : value) :
  has_keys ["key"; "name"; "id"] p = true -> exists e, project_entry p = Ok e.
Proof.
  intros H. destruct p; try discriminate H. unfold project_entry.
  expose H. shape_cases H. eexists; reflexivity.
Qed.

Lemma space_entry_ok (p : value) :
  has_keys ["key"; "name"; "type"; "id"] p = true -> exists e, space_entry p = Ok e.
Proof.
  intros H. destruct p; try discriminate H. unfold space_entry.
  expose H. shape_cases H. eexists; reflexivity.
Qed.

Lemma created_entry_ok (p : value) :
  has_keys ["key"; "id"; "self"] p = true ->
  exists d, created_entry p = Ok (VDict d) /\ map fst d = ["key"; "id"; "self"].
Proof.
  intros H. destruct p; try discriminate H. unfold created_entry.
  expose H. shape_cases H. eexists; split; reflexivity.
Qed.

Lemma search_issue_entry_ok (issue : value) :
  issue_item_shape issue = true -> exists e, search_issue_entry rt issue = Ok e.
Proof.
  intros H. destruct issue; try discriminate H.
  unfold issue_item_shape in H. unfold search_issue_entry.
  expose H. shape_cases H; simpl.
  - eexists; reflexivity.
  - destruct (assoc "status" d) as [[]|]; destruct (assoc "issuetype" d) as [[]|];
      simpl; eexists; reflexivity.
Qed.

Lemma issue_entry_ok (issue : value) :
  issue_shape issue = true ->
  exists d, issue_entry issue = Ok (VDict d) /\ map fst d = domain_keys "jira_get_issue".
Proof.
  intros H. destruct issue; try discriminate H.
  unfold issue_shape in H. unfold issue_entry.
  expose H. shape_cases H; simpl;
    repeat match goal with
           | |- context [match ?l with [] => _ | _ :: _ => _ end] =>
               is_var l; destruct l; simpl
           end; eexists; split; reflexivity.
Qed.

Lemma page_entry_ok (page : value) :
  page_item_shape page = true -> exists e, page_entry page = Ok e.
Proof.
  intros H. destruct page; try discriminate H.
  unfold page_item_shape in H. unfold page_entry.
  expose H. shape_cases H; simpl;
    repeat match goal with
           | |- context [if ?b then _ else _] => destruct b; simpl
           end; eexists; reflexivity.
Qed.

Lemma page_content_ok (page : value) :
  page_shape page = true ->
  exists d, page_content page = Ok (VDict d) /\ map fst d = domain_keys "confluence_get_page".
Proof.
  intros H. destruct page; try discriminate H.
  unfold page_shape in H. unfold page_content.
  expose H. shape_cases H; simpl; eexists; split; reflexivity.
Qed.

End Normalisation.

Section ConnectorSuccess.
Variable rt : runtime.
Variable cfg : config.

(** A connector that reached the upstream service and got a response with
    a success status and a document of the expected shape returns the
    mapping of its domain fields. *)
Lemma connector_upstream_success
    (s : string) (h : handler) (params : value) (log : list event)
    (rq : http_request) (resp : response) :
  find_handler s (TOOL_HANDLERS rt cfg) = Some h ->
  snd (h params log) = (log ++ [EvUpstream rq])%list ->
  requests_request rt log rq = Responded resp ->
  success_status s (status_code resp) = true ->
  expected_shape s (resp_json resp) = true ->
  exists d,
    h params log = (Ok (VDict d), (log ++ [EvUpstream rq])%list) /\
    map fst d = domain_keys s.
Proof.
  intros Hf Hlog Hresp Hst Hsh.
  unfold success_status in Hst.
  destruct (find_handler_cases rt cfg s h Hf)
    as [[-> ->]|[[-> ->]|[[-> ->]|[[-> ->]|[[-> ->]|[[-> ->]|[-> ->]]]]]]];
    simpl in Hst; try rewrite orb_false_r in Hst;
    (destruct (resp_json resp) as [v|m] eqn:Hj; [|discriminate Hsh]).
  - unfold tool_jira_get_projects in *. to_upstream Hlog.
    sent_request rt log rq Hlog Hq. rewrite Hresp, Hst.
    unfold response_json. rewrite Hj.
    destruct v; try (cbv in Hsh; discriminate Hsh).
    change (forallb (has_keys ["key"; "name"; "id"]) l = true) in Hsh.
    destruct (map_res_forallb project_entry _ l project_entry_ok Hsh) as [ys Hys].
    cbn [bindR py_iter]. rewrite Hys. eexists; split; reflexivity.
  - unfold tool_jira_search_issues in *. to_upstream Hlog.
    sent_request rt log rq Hlog Hq. rewrite Hresp, Hst.
    unfold response_json. rewrite Hj.
    destruct v; try (cbv in Hsh; discriminate Hsh).
    + change (forallb issue_item_shape l = true) in Hsh.
      destruct (map_res_forallb (search_issue_entry rt) _ l (search_issue_entry_ok rt) Hsh)
        as [ys Hys].
      cbn [bindR py_iter isinstance_list isinstance_dict]. rewrite Hys.
      eexists; split; reflexivity.
    + change (optional_list issue_item_shape "issues" d = true) in Hsh.
      unfold optional_list in Hsh.
      cbn [bindR py_iter py_get isinstance_list isinstance_dict].
      destruct (assoc "issues" d) as [[]|]; try discriminate Hsh.
      * destruct (map_res_forallb (search_issue_entry rt) _ l (search_issue_entry_ok rt) Hsh)
          as [ys Hys].
        cbn [bindR py_iter]. rewrite Hys. eexists; split; reflexivity.
      * eexists; split; reflexivity.
  - unfold tool_jira_get_issue in *. to_upstream Hlog.
    sent_request rt log rq Hlog Hq. rewrite Hresp, Hst.
    unfold response_json. rewrite Hj. cbn [bindR].
    destruct (issue_entry_ok v Hsh) as [d [Hd Hk]]. rewrite Hd.
    exists d. split; [reflexivity | exact Hk].
  - unfold tool_jira_create_issue in *. to_upstream Hlog.
    sent_request rt log rq Hlog Hq. rewrite Hresp, Hst.
    unfold response_json. rewrite Hj. cbn [bindR].
    destruct (created_entry_ok v Hsh) as [d [Hd Hk]]. rewrite Hd.
    exists d. split; [reflexivity | exact Hk].
  - unfold tool_confluence_get_spaces in *. to_upstream Hlog.
    sent_request rt log rq Hlog Hq. rewrite Hresp, Hst.
    unfold response_json. rewrite Hj.
    destruct v; try (cbv in Hsh; discriminate Hsh).
    change (optional_list (has_keys ["key"; "name"; "type"; "id"]) "results" d = true) in Hsh.
    unfold optional_list in Hsh.
    cbn [bindR py_iter py_get].
    destruct (assoc "results" d) as [[]|]; try discriminate Hsh.
    + destruct (map_res_forallb space_entry _ l space_entry_ok Hsh) as [ys Hys].
      cbn [bindR py_iter]. rewrite Hys. eexists; split; reflexivity.
    + eexists; split; reflexivity.
  - unfold tool_confluence_search in *. to_upstream Hlog.
    sent_request rt log rq Hlog Hq. rewrite Hresp, Hst.
    unfold response_json. rewrite Hj.
    destruct v; try (cbv in Hsh; discriminate Hsh).
    change (optional_list page_item_shape "results" d = true) in Hsh.
    unfold optional_list in Hsh.
    cbn [bindR py_iter py_get].
    destruct (assoc "results" d) as [[]|]; try discriminate Hsh.
    + destruct (map_res_forallb page_entry _ l page_entry_ok Hsh) as [ys Hys].
      cbn [bindR py_iter]. rewrite Hys. eexists; split; reflexivity.
    + eexists; split; reflexivity.
  - unfold tool_confluence_get_page in *. to_upstream Hlog.
    sent_request rt log rq Hlog Hq. rewrite Hresp, Hst.
    unfold response_json. rewrite Hj. cbn [bindR].
    destruct (page_content_ok v Hsh) as [d [Hd Hk]]. rewrite Hd.
    exists d. split; [reflexivity | exact Hk].
Qed.

End ConnectorSuccess.

(** C3, as the code has it: a connector that reached the upstream service
    and got a response returns {"error": <body text>, "status_code": <code>},
    without raising, for every status other than 200 (other than 200 and 201
    for jira_create_issue); for status 200 (200 or 201 for
    jira_create_issue) with a JSON document of the shape the connector
    expects it returns the mapping of its domain fields. *)
Theorem C3_connector_contract
    (rt : runtime) (cfg : config) (s : string) (h : handler) (params : value)
    (log : list event) (rq : http_request) (resp : response) :
  find_handler s (TOOL_HANDLERS rt cfg) = Some h ->
  snd (h params log) = (log ++ [EvUpstream rq])%list ->
  requests_request rt log rq = Responded resp ->
  (success_status s (status_code resp) = false ->
   h params log = (Ok (error_result resp), (log ++ [EvUpstream rq])%list)) /\
  (success_status s (status_code resp) = true ->
   expected_shape s (resp_json resp) = true ->
   exists d,
     h params log = (Ok (VDict d), (log ++ [EvUpstream rq])%list) /\
     map fst d = domain_keys s).
Proof.
  intros Hf Hlog Hresp. split.
  - exact (connector_upstream_error rt cfg s h params log rq resp Hf Hlog Hresp).
  - exact (connector_upstream_success rt cfg s h params log rq resp Hf Hlog Hresp).
Qed.

Lemma C3_witness :
  (* 404 from the upstream *)
  fst (tool_jira_get_issue
         (fixed_runtime (Ok VNone)
            (Responded (upstream_response 404 "Issue does not exist" (NotJson "Expecting value"))))
         demo_config (VDict [("issue_key", VStr "PROJ-1")]) []) =
    Ok (VDict [("error", VStr "Issue does not exist"); ("status_code", VInt 404)]) /\
  (* 201 from the upstream *)
  exists d,
    fst (tool_jira_create_issue
           (fixed_runtime (Ok VNone)
              (Responded (upstream_response 201 ""
                 (JsonBody (VDict [("id", VStr "10001"); ("key", VStr "PROJ-2");
                                   ("self", VStr "https://example.atlassian.net/rest/api/3/issue/10001")])))))
           demo_config
           (VDict [("project_key", VStr "PROJ"); ("summary", VStr "Title")]) []) = Ok (VDict d) /\
    map fst d = ["key"; "id"; "self"].
Proof.
  split.
  - destruct (C3_connector_contract
                (fixed_runtime (Ok VNone)
                   (Responded (upstream_response 404 "Issue does not exist" (NotJson "Expecting value"))))
                demo_config "jira_get_issue" _ (VDict [("issue_key", VStr "PROJ-1")]) []
                _ (upstream_response 404 "Issue does not exist" (NotJson "Expecting value"))
                eq_refl eq_refl eq_refl) as [H _].
    rewrite (H eq_refl). reflexivity.
  - destruct (C3_connector_contract
                (fixed_runtime (Ok VNone)
                   (Responded (upstream_response 201 ""
                      (JsonBody (VDict [("id", VStr "10001"); ("key", VStr "PROJ-2");
                                        ("self", VStr "https://example.atlassian.net/rest/api/3/issue/10001")])))))
                demo_config "jira_create_issue" _
                (VDict [("project_key", VStr "PROJ"); ("summary", VStr "Title")]) []
                _ (upstream_response 201 ""
                     (JsonBody (VDict [("id", VStr "10001"); ("key", VStr "PROJ-2");
                                       ("self", VStr "https://example.atlassian.net/rest/api/3/issue/10001")])))
                eq_refl eq_refl eq_refl) as [_ H].
    destruct (H eq_refl eq_refl) as [d [Hd Hk]].
    exists d. split; [rewrite Hd; reflexivity | exact Hk].
Defined.

(** C3 as the specification words it fails twice.  A 2xx status other than 200 is
    reported as an error: on 204 jira_get_projects returns the error mapping,
    not its domain fields.  And a connector can raise on a response: on 200
    with the document {} jira_get_issue raises KeyError. *)
Lemma C3_not_every_2xx_is_success :
  is_2xx 204 = true /\
  fst (tool_jira_get_projects
         (fixed_runtime (Ok VNone) (Responded (upstream_response 204 "" (NotJson "Expecting value"))))
         demo_config (VDict []) []) =
    Ok (VDict [("error", VStr ""); ("status_code", VInt 204)]) /\
  is_2xx 200 = true /\
  fst (tool_jira_get_issue
         (fixed_runtime (Ok VNone) (Responded (upstream_response 200 "{}" (JsonBody (VDict [])))))
         demo_config (VDict [("issue_key", VStr "PROJ-1")]) []) =
    Raise (KeyError "key").
Proof. repeat split. Qed.

(** * Further properties of the server *)

(** ** What a connector sends *)

Lemma append_assoc' (a b c : string) : ((a ++ b) ++ c = a ++ (b ++ c))%string.
Proof. induction a as [|x a IH]; simpl; [reflexivity | now rewrite IH]. Qed.

Lemma prefixb_app_both (b p q : string) :
  prefixb (b ++ p) (b ++ q) = prefixb p q.
Proof. induction b as [|x b IH]; simpl; [reflexivity | now rewrite Ascii.eqb_refl]. Qed.

(** Runs a connector up to its result by case analysis on parameter
    handling, the upstream outcome and the status tests. *)
Ltac run_connector :=
  unfold bind, lift, ret, jira_request, confluence_request, send;
  repeat match goal with
         | |- context [match py_get ?a ?b ?c with _ => _ end] =>
             destruct (py_get a b c) eqn:?; simpl
         | |- context [match quote ?a with _ => _ end] =>
             destruct (quote a) eqn:?; simpl
         | |- context [if negb ?b then _ else _] =>
             destruct b eqn:?; simpl
         | |- context [if (negb ?a || negb ?b) then _ else _] =>
             destruct (negb a || negb b) eqn:?; simpl
         | |- context [match requests_request ?rt ?l ?q with _ => _ end] =>
             destruct (requests_request rt l q) eqn:?; simpl
         | |- context [if (?a =? ?b) then _ else _] =>
             destruct (a =? b) eqn:?; simpl
         | |- context [if (?a =? ?b) || ?c then _ else _] =>
             destruct ((a =? b) || c) eqn:?; simpl
         end.

Lemma connector_request
    (rt : runtime) (cfg : config) (s : string) (h : handler)
    (params : value) (log : list event) :
  find_handler s (TOOL_HANDLERS rt cfg) = Some h ->
  snd (h params log) = log \/
  exists rq,
    snd (h params log) = (log ++ [EvUpstream rq])%list /\
    prefixb (ATLASSIAN_URL cfg ++ api_prefix s) (rq_url rq) = true /\
    rq_auth rq = Some (ATLASSIAN_EMAIL cfg, ATLASSIAN_API_TOKEN cfg) /\
    rq_headers rq = [("Accept", "application/json"); ("Content-Type", "application/json")] /\
    rq_timeout rq = None /\
    (if String.eqb s "jira_create_issue"
     then rq_method rq = "POST" /\ exists data, rq_json rq = Some data
     else rq_method rq = "GET" /\ rq_json rq = None).
Proof.
  intros Hf.
  destruct (find_handler_cases rt cfg s h Hf)
    as [[-> ->]|[[-> ->]|[[-> ->]|[[-> ->]|[[-> ->]|[[-> ->]|[-> ->]]]]]]].
  - unfold tool_jira_get_projects. run_connector.
    all: try (left; reflexivity).
    all: right; eexists; split; [reflexivity|].
    all: simpl; rewrite prefixb_app_both; repeat split; try reflexivity;
      try (eexists; reflexivity).
  - unfold tool_jira_search_issues. run_connector.
    all: try (left; reflexivity).
    all: right; eexists; split; [reflexivity|].
    all: simpl; rewrite prefixb_app_both; repeat split; try reflexivity;
      try (eexists; reflexivity).
  - unfold tool_jira_get_issue. run_connector.
    all: try (left; reflexivity).
    all: right; eexists; split; [reflexivity|].
    all: simpl; rewrite prefixb_app_both; repeat split; try reflexivity;
      try (eexists; reflexivity).
  - unfold tool_jira_create_issue. run_connector.
    all: try (left; reflexivity).
    all: right; eexists; split; [reflexivity|].
    all: simpl; rewrite prefixb_app_both; repeat split; try reflexivity;
      try (eexists; reflexivity).
  - unfold tool_confluence_get_spaces. run_connector.
    all: try (left; reflexivity).
    all: right; eexists; split; [reflexivity|].
    all: simpl; rewrite prefixb_app_both; repeat split; try reflexivity;
      try (eexists; reflexivity).
  - unfold tool_confluence_search. run_connector.
    all: try (left; reflexivity).
    all: right; eexists; split; [reflexivity|].
    all: simpl; rewrite prefixb_app_both; repeat split; try reflexivity;
      try (eexists; reflexivity).
  - unfold tool_confluence_get_page. run_connector.
    all: try (left; reflexivity).
    all: right; eexists; split; [reflexivity|].
    all: simpl; rewrite prefixb_app_both; repeat split; try reflexivity;
      try (eexists; reflexivity).
Qed.

(** X1: a call of any handler of the dispatch table sends at most one
    upstream request.  When it sends one, the request goes to the
    configured base URL followed by the REST root of the tool's service,
    carries the configured basic-auth pair and the JSON headers, and has no
    timeout; it is a POST with a JSON body for jira_create_issue and a GET
    without body for every other tool. *)
Theorem X1_connector_request
    (rt : runtime) (cfg : config) (s : string) (h : handler)
    (params : value) (log : list event) :
  find_handler s (TOOL_HANDLERS rt cfg) = Some h ->
  snd (h params log) = log \/
  exists rq,
    snd (h params log) = (log ++ [EvUpstream rq])%list /\
    prefixb (ATLASSIAN_URL cfg ++ api_prefix s) (rq_url rq) = true /\
    rq_auth rq = Some (ATLASSIAN_EMAIL cfg, ATLASSIAN_API_TOKEN cfg) /\
    rq_headers rq = [("Accept", "application/json"); ("Content-Type", "application/json")] /\
    rq_timeout rq = None /\
    (if String.eqb s "jira_create_issue"
     then rq_method rq = "POST" /\ exists data, rq_json rq = Some data
     else rq_method rq = "GET" /\ rq_json rq = None).
Proof. exact (connector_request rt cfg s h params log). Qed.

Lemma X1_witness :
  snd (tool_jira_create_issue
         (fixed_runtime (Ok VNone) (Failed "connection refused")) demo_config
         (VDict [("project_key", VStr "PROJ"); ("summary", VStr "Title")]) []) = [] \/
  exists rq,
    snd (tool_jira_create_issue
           (fixed_runtime (Ok VNone) (Failed "connection refused")) demo_config
           (VDict [("project_key", VStr "PROJ"); ("summary", VStr "Title")]) []) =
      ([] ++ [EvUpstream rq])%list /\
    prefixb (ATLASSIAN_URL demo_config ++ api_prefix "jira_create_issue") (rq_url rq) = true /\
    rq_auth rq = Some (ATLASSIAN_EMAIL demo_config, ATLASSIAN_API_TOKEN demo_config) /\
    rq_headers rq = [("Accept", "application/json"); ("Content-Type", "application/json")] /\
    rq_timeout rq = None /\
    (if String.eqb "jira_create_issue" "jira_create_issue"
     then rq_method rq = "POST" /\ exists data, rq_json rq = Some data
     else rq_method rq = "GET" /\ rq_json rq = None).
Proof.
  apply (X1_connector_request
           (fixed_runtime (Ok VNone) (Failed "connection refused")) demo_config
           "jira_create_issue"). reflexivity.
Defined.

(** ** The events of one POST *)

Lemma handlers_get_found (rt : runtime) (cfg : config) (v : value) (h : handler) :
  handlers_get rt cfg v = Ok (Some h) ->
  exists s, v = VStr s /\ find_handler s (TOOL_HANDLERS rt cfg) = Some h.
Proof.
  unfold handlers_get. destruct v; try discriminate.
  intros H. inversion H. eexists; split; reflexivity.
Qed.

Lemma invoke_tool_trace (rt : runtime) (cfg : config) (data : value) (log : list event) :
  exists evs, snd (invoke_tool rt cfg data log) = (log ++ evs)%list /\ post_trace evs.
Proof.
  unfold invoke_tool, bind, lift, ret, emit, try_except.
  destruct (py_get data "name" VNone) as [name|e]; simpl;
    [|exists []; rewrite app_nil_r; split; [reflexivity | constructor]].
  destruct (py_get data "parameters" (VDict [])) as [parameters|e]; simpl;
    [|exists []; rewrite app_nil_r; split; [reflexivity | constructor]].
  destruct (truthy name); simpl;
    [|exists []; rewrite app_nil_r; split; [reflexivity | constructor]].
  destruct (handlers_get rt cfg name) as [[h|]|e] eqn:Hg; simpl;
    try (exists [EvLookup name]; split; [reflexivity | constructor]).
  destruct (handlers_get_found rt cfg name h Hg) as [s [-> Hf]].
  destruct (connector_request rt cfg s h parameters
              ((log ++ [EvLookup (VStr s)]) ++ [EvInvoke (VStr s)])%list Hf)
    as [Hl | [rq [Hl _]]].
  - exists [EvLookup (VStr s); EvInvoke (VStr s)].
    destruct (h parameters _) as [[x|e] l]; simpl in *; subst l;
      rewrite <- app_assoc; split; try reflexivity; constructor.
  - exists [EvLookup (VStr s); EvInvoke (VStr s); EvUpstream rq].
    destruct (h parameters _) as [[x|e] l]; simpl in *; subst l;
      rewrite <- !app_assoc; split; try reflexivity; constructor.
Qed.

Lemma do_POST_trace
    (rt : runtime) (cfg : config) (r : request) (log : list event) :
  exists evs,
    snd (do_POST rt cfg r log) = (log ++ evs)%list /\ post_trace evs.
Proof.
  unfold do_POST, bind, lift, ret, raise.
  destruct (urlparse_path rt (req_path r)) as [p|e]; simpl;
    [|exists []; rewrite app_nil_r; split; [reflexivity | constructor]].
  destruct (content_length rt r) as [n|e]; simpl;
    [|exists []; rewrite app_nil_r; split; [reflexivity | constructor]].
  destruct (rfile_read rt n (req_rfile r)) as [bytes|e]; simpl;
    [|exists []; rewrite app_nil_r; split; [reflexivity | constructor]].
  destruct (load_body rt bytes) as [data|e]; simpl.
  - destruct (String.eqb p "/mcp/v1/invoke").
    + apply invoke_tool_trace.
    + exists []; rewrite app_nil_r; split; [reflexivity | constructor].
  - destruct e; exists []; rewrite app_nil_r; split; try reflexivity; constructor.
Qed.

(** X2: whatever the request, one POST adds to the event log nothing, or a
    lookup, or a lookup and the call of the handler found, or these two and
    one upstream request, in this order.  So no handler runs without a
    lookup, and one POST causes at most one upstream request. *)
Theorem X2_post_trace
    (rt : runtime) (cfg : config) (r : request) (log : list event) :
  exists evs,
    snd (do_POST rt cfg r log) = (log ++ evs)%list /\ post_trace evs.
Proof. exact (do_POST_trace rt cfg r log). Qed.


(** ** When no response is written *)

Lemma invoke_tool_not_object (rt : runtime) (cfg : config) (data : value) (log : list event) :
  isinstance_dict data = false ->
  invoke_tool rt cfg data log = (Raise (AttributeError (type_name data) "get"), log).
Proof. destruct data; try discriminate; reflexivity. Qed.

Lemma invoke_tool_unhashable
    (rt : runtime) (cfg : config) (d : pydict) (v : value) (log : list event) :
  assoc "name" d = Some v ->
  truthy v = true ->
  isinstance_list v || isinstance_dict v = true ->
  invoke_tool rt cfg (VDict d) log =
    (Raise (TypeError (Unhashable (type_name v))), (log ++ [EvLookup v])%list).
Proof.
  intros Hname Ht Hi. unfold invoke_tool, bind, lift, emit. simpl py_get. cbv iota beta.
  rewrite Hname, Ht. cbn [negb]. cbv iota beta.
  destruct v; try discriminate Hi; reflexivity.
Qed.

(** Every other decoded object gets a response. *)
Lemma invoke_tool_responds
    (rt : runtime) (cfg : config) (d : pydict) (log : list event) :
  (forall v, assoc "name" d = Some v -> truthy v = true ->
             isinstance_list v || isinstance_dict v = false) ->
  exists resp, fst (invoke_tool rt cfg (VDict d) log) = Ok resp.
Proof.
  intros Hh. destruct (assoc "name" d) as [v|] eqn:Hname.
  - destruct (truthy v) eqn:Ht.
    + specialize (Hh v eq_refl Ht).
      destruct (handlers_get rt cfg v) as [[h|]|e] eqn:Hg.
      * destruct (handlers_get_found rt cfg v h Hg) as [s [-> Hf]].
        rewrite (invoke_tool_known rt cfg d s h log Hname Hf).
        match goal with |- context [h ?p ?l] => destruct (h p l) as [[x|e'] l'] end;
          eexists; reflexivity.
      * rewrite (invoke_tool_unknown rt cfg d v log Hname Ht Hg). eexists; reflexivity.
      * destruct v; try discriminate Hg; discriminate Hh.
    + rewrite invoke_tool_no_name by (right; exists v; split; [exact Hname | exact Ht]).
      eexists; reflexivity.
  - rewrite invoke_tool_no_name by (left; exact Hname). eexists; reflexivity.
Qed.

(** X3: on the invoke route, once the body has been read and decoded, the
    handler method raises, so that no response is written, in exactly two
    cases: the decoded body is not an object ([data.get] raises
    AttributeError, before anything is looked up), or the name is a
    non-empty list or object ([TOOL_HANDLERS.get] raises TypeError on the
    unhashable key). *)
Theorem X3_post_raises
    (rt : runtime) (cfg : config) (r : request) (log : list event) (n : Z)
    (bytes : string) (data : value) (e : exn) :
  urlparse_path rt (req_path r) = Ok "/mcp/v1/invoke" ->
  content_length rt r = Ok n ->
  rfile_read rt n (req_rfile r) = Ok bytes ->
  load_body rt bytes = Ok data ->
  (fst (do_POST rt cfg r log) = Raise e <->
   (isinstance_dict data = false /\ e = AttributeError (type_name data) "get" /\
    snd (do_POST rt cfg r log) = log) \/
   (exists d v, data = VDict d /\ assoc "name" d = Some v /\ truthy v = true /\
                isinstance_list v || isinstance_dict v = true /\
                e = TypeError (Unhashable (type_name v)))).
Proof.
  intros Hp Hn Hr Hb. rewrite (do_POST_invoke rt cfg r log n bytes data Hp Hn Hr Hb).
  destruct (isinstance_dict data) eqn:Hd.
  - destruct data; try discriminate Hd. split.
    + intros He.
      destruct (assoc "name" d) as [v|] eqn:Hname.
      * destruct (truthy v) eqn:Ht.
        -- destruct (isinstance_list v || isinstance_dict v) eqn:Hi.
           ++ rewrite (invoke_tool_unhashable rt cfg d v log Hname Ht Hi) in He.
              inversion He. right. exists d, v. repeat split; assumption.
           ++ destruct (invoke_tool_responds rt cfg d log) as [resp Hresp].
              { intros v' Hv' _. congruence. }
              congruence.
        -- destruct (invoke_tool_responds rt cfg d log) as [resp Hresp].
           { intros v' Hv' Ht'. congruence. }
           congruence.
      * destruct (invoke_tool_responds rt cfg d log) as [resp Hresp].
        { intros v' Hv' _. congruence. }
        congruence.
    + intros [[H _]|[d' [v [Hd' [Hname [Ht [Hi ->]]]]]]]; [discriminate H|].
      inversion Hd'; subst d'.
      rewrite (invoke_tool_unhashable rt cfg d v log Hname Ht Hi). reflexivity.
  - rewrite (invoke_tool_not_object rt cfg data log Hd). split.
    + intros He. inversion He. left. repeat split.
    + intros [[_ [-> _]]|[d [v [-> _]]]]; [reflexivity | discriminate Hd].
Qed.

Lemma X3_witness :
  fst (do_POST (fixed_runtime (Ok (VList [])) (Failed "unreachable")) demo_config
               (request_with_body "/mcp/v1/invoke" "[]") []) =
    Raise (AttributeError "list" "get") /\
  handle_one_request (fixed_runtime (Ok (VList [])) (Failed "unreachable")) demo_config
    POST (request_with_body "/mcp/v1/invoke" "[]") [] = (Ok None, []).
Proof.
  split; [|reflexivity].
  apply (X3_post_raises (fixed_runtime (Ok (VList [])) (Failed "unreachable")) demo_config
           (request_with_body "/mcp/v1/invoke" "[]") [] 2 "[]" (VList [])
           (AttributeError "list" "get") eq_refl eq_refl eq_refl eq_refl).
  left. repeat split.
Defined.

(** ** The responses of a POST *)

Ltac closes_response :=
  intros H; inversion H; subst; clear H;
  split; [reflexivity|]; eexists; split; [reflexivity|];
  unfold envelope_for; simpl;
  first [ left; repeat split; eexists; reflexivity
        | right; left; repeat split; eexists; reflexivity
        | right; right; split; [left; reflexivity|]; split; [reflexivity|];
          eexists; reflexivity
        | right; right; split; [right; reflexivity|]; split; [reflexivity|];
          eexists; reflexivity ].

Lemma invoke_tool_response
    (rt : runtime) (cfg : config) (data : value) (log : list event) (resp : http_response) :
  fst (invoke_tool rt cfg data log) = Ok resp ->
  headers resp = [("Content-Type", "application/json"); ("Access-Control-Allow-Origin", "*")] /\
  exists d, body resp = Some (VDict d) /\ envelope_for (status resp) d.
Proof.
  unfold invoke_tool, bind, lift, ret, emit, try_except.
  destruct (py_get data "name" VNone) as [name|e]; cbn [fst]; [|discriminate].
  destruct (py_get data "parameters" (VDict [])) as [parameters|e]; cbn [fst]; [|discriminate].
  destruct (truthy name); cbn [negb]; cbv iota; [|closes_response].
  destruct (handlers_get rt cfg name) as [[h|]|e]; cbv iota beta;
    [ | closes_response | discriminate ].
  match goal with |- context [h ?p ?l] => destruct (h p l) as [[x|e'] l'] end;
    closes_response.
Qed.

Lemma do_POST_response
    (rt : runtime) (cfg : config) (r : request) (log : list event) (resp : http_response) :
  fst (do_POST rt cfg r log) = Ok resp ->
  headers resp = [("Content-Type", "application/json"); ("Access-Control-Allow-Origin", "*")] /\
  exists d, body resp = Some (VDict d) /\ envelope_for (status resp) d.
Proof.
  unfold do_POST, bind, lift, ret, raise.
  destruct (urlparse_path rt (req_path r)) as [p|e]; cbn [fst]; [|discriminate].
  destruct (content_length rt r) as [n|e]; cbn [fst]; [|discriminate].
  destruct (rfile_read rt n (req_rfile r)) as [bytes|e]; cbn [fst]; [|discriminate].
  destruct (load_body rt bytes) as [data|e].
  - destruct (String.eqb p "/mcp/v1/invoke").
    + apply invoke_tool_response.
    + closes_response.
  - destruct e; try discriminate. closes_response.
Qed.

(** X4: every response a POST writes carries the JSON content type and the
    wildcard CORS header, has status 200, 400, 404 or 500, and has an object
    as body whose "error" is None exactly with status 200: a result with a
    null error for 200, a null result with a message for 500, a message and
    no "result" key for 400 and 404. *)
Theorem X4_post_response
    (rt : runtime) (cfg : config) (r : request) (log : list event) (resp : http_response) :
  fst (do_POST rt cfg r log) = Ok resp ->
  headers resp = [("Content-Type", "application/json"); ("Access-Control-Allow-Origin", "*")] /\
  exists d, body resp = Some (VDict d) /\ envelope_for (status resp) d.
Proof. exact (do_POST_response rt cfg r log resp). Qed.

Lemma X4_witness :
  headers (_send_json (VDict [("error", VStr "Not found")]) 404) =
    [("Content-Type", "application/json"); ("Access-Control-Allow-Origin", "*")] /\
  exists d, body (_send_json (VDict [("error", VStr "Not found")]) 404) = Some (VDict d) /\
            envelope_for (status (_send_json (VDict [("error", VStr "Not found")]) 404)) d.
Proof.
  apply (X4_post_response (fixed_runtime (Ok (VDict [])) (Failed "unreachable")) demo_config
           (request_with_body "/elsewhere" "{}") []).
  reflexivity.
Defined.

(** X5: a POST body is decoded before the path is acted on.  When the
    request target parses to a path other than the invoke route and the body
    has been read, a body that decodes, to an object or not, is answered 404
    "Not found", and a body the decoder rejects with JSONDecodeError is
    answered 400 "Invalid JSON"; neither touches the dispatch table. *)
Theorem X5_post_other_path
    (rt : runtime) (cfg : config) (r : request) (log : list event)
    (p : string) (n : Z) (bytes : string) :
  urlparse_path rt (req_path r) = Ok p ->
  p <> "/mcp/v1/invoke" ->
  content_length rt r = Ok n ->
  rfile_read rt n (req_rfile r) = Ok bytes ->
  (forall data, load_body rt bytes = Ok data ->
     exists resp,
       do_POST rt cfg r log = (Ok resp, log) /\
       status resp = 404 /\
       body resp = Some (VDict [("error", VStr "Not found")])) /\
  (forall m, load_body rt bytes = Raise (JSONDecodeError m) ->
     exists resp,
       do_POST rt cfg r log = (Ok resp, log) /\
       status resp = 400 /\
       body resp = Some (VDict [("error", VStr "Invalid JSON")])).
Proof.
  intros Hp Hne Hn Hr. apply String.eqb_neq in Hne. split.
  - intros data Hb. unfold do_POST, bind, lift. rewrite Hp, Hn, Hr, Hb, Hne.
    eexists. repeat split.
  - intros m Hb. rewrite (do_POST_invalid_json rt cfg r log p n bytes m Hp Hn Hr Hb).
    eexists. repeat split.
Qed.

Lemma X5_witness :
  (exists resp,
     do_POST (fixed_runtime (Ok (VList [])) (Failed "unreachable")) demo_config
             (request_with_body "/mcp/v1/tools" "[]") [] = (Ok resp, []) /\
     status resp = 404 /\
     body resp = Some (VDict [("error", VStr "Not found")])) /\
  (exists resp,
     do_POST (fixed_runtime (Raise (JSONDecodeError "Expecting value")) (Failed "unreachable"))
             demo_config (request_with_body "/mcp/v1/tools" "{") [] = (Ok resp, []) /\
     status resp = 400 /\
     body resp = Some (VDict [("error", VStr "Invalid JSON")])).
Proof.
  split.
  - apply (proj1 (X5_post_other_path
                    (fixed_runtime (Ok (VList [])) (Failed "unreachable")) demo_config
                    (request_with_body "/mcp/v1/tools" "[]") [] "/mcp/v1/tools" 2 "[]"
                    eq_refl ltac:(discriminate) eq_refl eq_refl) (VList [])).
    reflexivity.
  - apply (proj2 (X5_post_other_path
                    (fixed_runtime (Raise (JSONDecodeError "Expecting value")) (Failed "unreachable"))
                    demo_config (request_with_body "/mcp/v1/tools" "{") [] "/mcp/v1/tools" 1 "{"
                    eq_refl ltac:(discriminate) eq_refl eq_refl) "Expecting value").
    reflexivity.
Defined.

(** ** Failures inside a handler *)

Section HandlerFailures.
Variable rt : runtime.
Variable cfg : config.

(** A connector whose upstream request fails in transport raises the
    transport's exception. *)
Lemma connector_transport_failure
    (s : string) (h : handler) (params : value) (log : list event)
    (rq : http_request) (msg : string) :
  find_handler s (TOOL_HANDLERS rt cfg) = Some h ->
  snd (h params log) = (log ++ [EvUpstream rq])%list ->
  requests_request rt log rq = Failed msg ->
  h params log = (Raise (RequestException msg), (log ++ [EvUpstream rq])%list).
Proof.
  intros Hf Hlog Hresp.
  destruct (find_handler_cases rt cfg s h Hf)
    as [[-> ->]|[[-> ->]|[[-> ->]|[[-> ->]|[[-> ->]|[[-> ->]|[-> ->]]]]]]].
  - unfold tool_jira_get_projects in *. to_upstream Hlog.
    sent_request rt log rq Hlog Hq. rewrite Hresp. reflexivity.
  - unfold tool_jira_search_issues in *. to_upstream Hlog.
    sent_request rt log rq Hlog Hq. rewrite Hresp. reflexivity.
  - unfold tool_jira_get_issue in *. to_upstream Hlog.
    sent_request rt log rq Hlog Hq. rewrite Hresp. reflexivity.
  - unfold tool_jira_create_issue in *. to_upstream Hlog.
    sent_request rt log rq Hlog Hq. rewrite Hresp. reflexivity.
  - unfold tool_confluence_get_spaces in *. to_upstream Hlog.
    sent_request rt log rq Hlog Hq. rewrite Hresp. reflexivity.
  - unfold tool_confluence_search in *. to_upstream Hlog.
    sent_request rt log rq Hlog Hq. rewrite Hresp. reflexivity.
  - unfold tool_confluence_get_page in *. to_upstream Hlog.
    sent_request rt log rq Hlog Hq. rewrite Hresp. reflexivity.
Qed.

(** A handler that takes parameters calls [params.get] first. *)
Lemma handler_needs_object (s : string) (h : handler) (params : value) (log : list event) :
  find_handler s (TOOL_HANDLERS rt cfg) = Some h ->
  s <> "jira_get_projects" ->
  s <> "confluence_get_spaces" ->
  isinstance_dict params = false ->
  h params log = (Raise (AttributeError (type_name params) "get"), log).
Proof.
  intros Hf H1 H2 Hd.
  destruct (find_handler_cases rt cfg s h Hf)
    as [[-> ->]|[[-> ->]|[[-> ->]|[[-> ->]|[[-> ->]|[[-> ->]|[-> ->]]]]]]];
    try congruence; destruct params; try discriminate Hd; reflexivity.
Qed.

End HandlerFailures.

(** X6: when the handler found for an invoke request sends its upstream
    request and the transport fails (DNS, connect, timeout), the exception
    leaves the connector and the response is 500 with a null result and the
    transport's message as error. *)
Theorem X6_transport_failure_is_500
    (rt : runtime) (cfg : config) (r : request) (log : list event) (n : Z)
    (bytes : string) (d : pydict) (s : string) (h : handler) (rq : http_request)
    (msg : string) :
  urlparse_path rt (req_path r) = Ok "/mcp/v1/invoke" ->
  content_length rt r = Ok n ->
  rfile_read rt n (req_rfile r) = Ok bytes ->
  load_body rt bytes = Ok (VDict d) ->
  assoc "name" d = Some (VStr s) ->
  find_handler s (TOOL_HANDLERS rt cfg) = Some h ->
  let parameters := match assoc "parameters" d with Some p => p | None => VDict [] end in
  let log1 := (log ++ [EvLookup (VStr s)] ++ [EvInvoke (VStr s)])%list in
  snd (h parameters log1) = (log1 ++ [EvUpstream rq])%list ->
  requests_request rt log1 rq = Failed msg ->
  exists resp,
    do_POST rt cfg r log = (Ok resp, (log1 ++ [EvUpstream rq])%list) /\
    status resp = 500 /\
    body resp = Some (VDict [("result", VNone); ("error", VStr msg)]).
Proof.
  intros Hp Hn Hr Hb Hname Hf parameters log1 Hlog Hresp.
  rewrite (do_POST_invoke rt cfg r log n bytes (VDict d) Hp Hn Hr Hb).
  rewrite (invoke_tool_known rt cfg d s h log Hname Hf).
  fold parameters. fold log1.
  rewrite (connector_transport_failure rt cfg s h parameters log1 rq msg Hf Hlog Hresp).
  eexists. repeat split.
Qed.

Lemma X6_witness :
  exists rq resp,
    do_POST (fixed_runtime (Ok (invoke_data "confluence_get_spaces" (VDict [])))
               (Failed "Connection refused"))
            demo_config
            (request_with_body "/mcp/v1/invoke" (invoke_body "confluence_get_spaces" "{}")) [] =
      (Ok resp,
       ([] ++ [EvLookup (VStr "confluence_get_spaces")]
           ++ [EvInvoke (VStr "confluence_get_spaces")] ++ [EvUpstream rq])%list) /\
    status resp = 500 /\
    body resp = Some (VDict [("result", VNone); ("error", VStr "Connection refused")]).
Proof.
  eexists.
  eapply (X6_transport_failure_is_500
            (fixed_runtime (Ok (invoke_data "confluence_get_spaces" (VDict [])))
               (Failed "Connection refused"))
            demo_config
            (request_with_body "/mcp/v1/invoke" (invoke_body "confluence_get_spaces" "{}")) [] 51
            (invoke_body "confluence_get_spaces" "{}")
            [("name", VStr "confluence_get_spaces"); ("parameters", VDict [])]
            "confluence_get_spaces"
            (tool_confluence_get_spaces
               (fixed_runtime (Ok (invoke_data "confluence_get_spaces" (VDict [])))
                  (Failed "Connection refused")) demo_config)
            _ "Connection refused"); reflexivity.
Defined.

(** X7: the handlers of the tools that declare parameters read them with
    [params.get], so a "parameters" value that is not an object (a list, a
    string, a number, null) makes them raise AttributeError before any
    upstream request; the handlers of the tools that declare none never look
    at their argument. *)
Theorem X7_parameters_must_be_object
    (rt : runtime) (cfg : config) (t : value) (h : handler) (params : value)
    (log : list event) :
  In t TOOLS ->
  find_handler (descriptor_name t) (TOOL_HANDLERS rt cfg) = Some h ->
  isinstance_dict params = false ->
  if declares_parameters t
  then h params log = (Raise (AttributeError (type_name params) "get"), log)
  else forall other, h params log = h other log.
Proof.
  intros Ht Hf Hd. simpl in Ht.
  repeat (destruct Ht as [Ht|Ht]; [subst t|]); try contradiction.
  all: match type of Hf with
       | find_handler ?s _ = _ =>
           let s' := eval compute in s in change s with s' in Hf
       end.
  all: simpl.
  all: first
    [ match type of Hf with
      | find_handler ?s _ = _ =>
          apply (handler_needs_object rt cfg s h params log Hf);
          [discriminate | discriminate | exact Hd]
      end
    | intros other; simpl in Hf; inversion Hf; subst h; reflexivity ].
Qed.

Lemma X7_witness :
  tool_confluence_search (fixed_runtime (Ok VNone) (Failed "unreachable")) demo_config
    (VList [VStr "Benefits"]) [] = (Raise (AttributeError "list" "get"), []).
Proof.
  apply (X7_parameters_must_be_object
           (fixed_runtime (Ok VNone) (Failed "unreachable")) demo_config
           (tool_descriptor "confluence_search" "Search Confluence pages by text"
              [parameter_spec "query" "string" "Search query text" true;
               parameter_spec "max_results" "integer" "Maximum results (default 10)" false])
           _ (VList [VStr "Benefits"]) []).
  - simpl. tauto.
  - reflexivity.
  - reflexivity.
Defined.

(** X8: a "jql" parameter that is present but not a string (null, a number,
    a list) makes jira_search_issues raise TypeError while it builds the URL,
    before any upstream request. *)
Theorem X8_jql_must_be_string
    (rt : runtime) (cfg : config) (d : pydict) (v : value) (log : list event) :
  assoc "jql" d = Some v ->
  (forall s, v <> VStr s) ->
  tool_jira_search_issues rt cfg (VDict d) log = (Raise (TypeError QuoteExpectedBytes), log).
Proof.
  intros Hj Hv. unfold tool_jira_search_issues, bind, lift. simpl py_get. cbv iota beta.
  rewrite Hj. destruct v; try reflexivity. exfalso. apply (Hv s). reflexivity.
Qed.

Lemma X8_witness :
  tool_jira_search_issues (fixed_runtime (Ok VNone) (Failed "unreachable")) demo_config
    (VDict [("jql", VNone)]) [] = (Raise (TypeError QuoteExpectedBytes), []).
Proof.
  apply (X8_jql_must_be_string (fixed_runtime (Ok VNone) (Failed "unreachable")) demo_config
           [("jql", VNone)] VNone []).
  - reflexivity.
  - intros s. discriminate.
Defined.

(** ** Normalised search results *)

Lemma map_res_length {A B : Type} (f : A -> res B) (l : list A) :
  forall ys, map_res f l = Ok ys -> length ys = length l.
Proof.
  induction l as [|x l IH]; simpl; intros ys H.
  - inversion H. reflexivity.
  - destruct (f x) as [y|e]; [|discriminate].
    destruct (map_res f l) as [ys'|e]; [|discriminate].
    inversion H. simpl. now rewrite (IH ys' eq_refl).
Qed.

(** X9: when the issue search is answered 200 with a document of the
    expected shape, the result lists one normalised entry per upstream issue,
    in a mapping with the keys "total" and "issues"; the total is the one the
    document announces and, when it announces none (an object without
    "total", or a bare list), the number of issues returned. *)
Theorem X9_search_total
    (rt : runtime) (cfg : config) (params : value) (log : list event)
    (rq : http_request) (resp : response) (v : value) :
  snd (tool_jira_search_issues rt cfg params log) = (log ++ [EvUpstream rq])%list ->
  requests_request rt log rq = Responded resp ->
  status_code resp = 200 ->
  resp_json resp = JsonBody v ->
  expected_shape "jira_search_issues" (JsonBody v) = true ->
  exists issues,
    fst (tool_jira_search_issues rt cfg params log) =
      Ok (VDict [("total", match announced_total v with
                           | Some t => t
                           | None => VInt (Z.of_nat (length issues))
                           end);
                 ("issues", VList issues)]) /\
    length issues = length (issue_items v).
Proof.
  intros Hlog Hresp Hst Hj Hsh.
  unfold tool_jira_search_issues in *. to_upstream Hlog.
  sent_request rt log rq Hlog Hq. rewrite Hresp, Hst.
  unfold response_json. rewrite Hj. cbn [Z.eqb Pos.eqb].
  destruct v; try (cbv in Hsh; discriminate Hsh).
  - change (forallb issue_item_shape l = true) in Hsh.
    destruct (map_res_forallb (search_issue_entry rt) _ l (search_issue_entry_ok rt) Hsh)
      as [ys Hys].
    cbn [bindR py_iter isinstance_list isinstance_dict]. rewrite Hys.
    exists ys. split; [reflexivity|]. apply (map_res_length _ _ _ Hys).
  - change (optional_list issue_item_shape "issues" d = true) in Hsh.
    unfold optional_list in Hsh. unfold issue_items, announced_total.
    cbn [bindR py_iter py_get isinstance_list isinstance_dict].
    destruct (assoc "issues" d) as [[]|]; try discriminate Hsh.
    + destruct (map_res_forallb (search_issue_entry rt) _ l (search_issue_entry_ok rt) Hsh)
        as [ys Hys].
      cbn [bindR py_iter]. rewrite Hys.
      exists ys. split; [|apply (map_res_length _ _ _ Hys)].
      unfold len. destruct (assoc "total" d); reflexivity.
    + exists []. split; [|reflexivity].
      cbn [bindR py_iter map_res]. unfold len. destruct (assoc "total" d); reflexivity.
Qed.

Lemma X9_witness :
  exists issues,
    fst (tool_jira_search_issues
           (fixed_runtime (Ok VNone) (Responded (upstream_response 200 "" (JsonBody two_issues))))
           demo_config (VDict []) []) =
      Ok (VDict [("total", match announced_total two_issues with
                           | Some t => t
                           | None => VInt (Z.of_nat (length issues))
                           end);
                 ("issues", VList issues)]) /\
    length issues = length (issue_items two_issues).
Proof.
  eapply (X9_search_total
            (fixed_runtime (Ok VNone) (Responded (upstream_response 200 "" (JsonBody two_issues))))
            demo_config (VDict []) [] _
            (upstream_response 200 "" (JsonBody two_issues)) two_issues); reflexivity.
Defined.

Ltac bindR_cases :=
  unfold bindR;
  repeat match goal with
         | |- context [match ?x with Ok _ => _ | Raise _ => _ end] =>
             destruct x; try discriminate
         | |- context [if ?b then _ else _] => destruct b
         end.

(** X10: both formats of an upstream issue give an entry with the same five
    keys, key, summary, status, type and created, in this order; and an
    issue in the flat format (an object without "fields") is always
    normalised, whatever it holds. *)
Theorem X10_search_entry_keys (rt : runtime) (issue : value) :
  (forall e, search_issue_entry rt issue = Ok e ->
     exists d, e = VDict d /\ map fst d = ["key"; "summary"; "status"; "type"; "created"]) /\
  (forall d, issue = VDict d -> assoc "fields" d = None ->
     exists e, search_issue_entry rt issue = Ok e).
Proof.
  split.
  - intros e. unfold search_issue_entry. bindR_cases;
      intros H; inversion H; eexists; split; reflexivity.
  - intros d -> Hf. apply search_issue_entry_ok.
    unfold issue_item_shape. rewrite Hf. reflexivity.
Qed.

Lemma X10_witness :
  exists e, search_issue_entry (fixed_runtime (Ok VNone) (Failed "unreachable"))
              (VDict [("id", VStr "10002")]) = Ok e.
Proof.
  apply (proj2 (X10_search_entry_keys (fixed_runtime (Ok VNone) (Failed "unreachable"))
                  (VDict [("id", VStr "10002")])) [("id", VStr "10002")]); reflexivity.
Defined.

(** ** The space key of a page *)

Lemma has_slash_cons (a : ascii) (s : string) :
  substringb "/" (String a s) = Ascii.eqb "/"%char a || substringb "/" s.
Proof. simpl. now rewrite andb_true_r. Qed.

Lemma has_slash_snoc (acc : string) (a : ascii) :
  substringb "/" acc = false -> Ascii.eqb a "/"%char = false ->
  substringb "/" (acc ++ String a EmptyString) = false.
Proof.
  induction acc as [|b acc IH]; intros Hacc Ha.
  - change (substringb "/" (String a EmptyString) = false).
    rewrite has_slash_cons, Ascii.eqb_sym, Ha. reflexivity.
  - change (String b acc ++ String a EmptyString)%string
      with (String b (acc ++ String a EmptyString)).
    rewrite has_slash_cons in *. apply orb_false_iff in Hacc. destruct Hacc as [H1 H2].
    rewrite H1. simpl. apply IH; assumption.
Qed.

Lemma last_segment_aux_no_slash (s acc : string) :
  substringb "/" acc = false -> substringb "/" (last_segment_aux acc s) = false.
Proof.
  revert acc. induction s as [|a s IH]; intros acc Hacc; simpl.
  - exact Hacc.
  - destruct (Ascii.eqb a "/"%char) eqn:Ha.
    + apply IH. reflexivity.
    + apply IH. apply has_slash_snoc; assumption.
Qed.

Lemma last_segment_no_slash (s : string) : substringb "/" (last_segment s) = false.
Proof. apply last_segment_aux_no_slash. reflexivity. Qed.

(** X11: in a normalised page of a Confluence search the "space" entry is
    None or a string without a slash: the text after the last slash of the
    page's [_expandable.space] link, and None when the link is missing,
    empty or has no slash. *)
Theorem X11_page_space_key (page : value) (d : pydict) :
  page_entry page = Ok (VDict d) ->
  map fst d = ["id"; "title"; "type"; "space"] /\
  (assoc "space" d = Some VNone \/
   exists k, assoc "space" d = Some (VStr k) /\ substringb "/" k = false).
Proof.
  unfold page_entry.
  destruct (py_get page "_expandable" (VDict [])) as [expandable|e]; [|discriminate].
  cbn [bindR].
  destruct (py_get expandable "space" (VStr "")) as [space|e]; [|discriminate].
  cbn [bindR].
  assert (Hsp : forall sk,
            (if truthy space
             then slash <~ py_contains "/" space ;;
                  (if slash then py_split_last space else Ok VNone)
             else Ok VNone) = Ok sk ->
            sk = VNone \/ exists k, sk = VStr k /\ substringb "/" k = false).
  { intros sk. destruct (truthy space); [|intros H; inversion H; left; reflexivity].
    destruct (py_contains "/" space) as [[|]|e]; cbn [bindR]; try discriminate.
    - destruct space; simpl; try discriminate.
      intros H; inversion H. right. eexists. split; [reflexivity|].
      apply last_segment_no_slash.
    - intros H; inversion H; left; reflexivity. }
  match goal with
  | |- context [bindR ?c _] => destruct c as [sk|e] eqn:Hc; [|discriminate]
  end.
  specialize (Hsp sk eq_refl). cbn [bindR]. bindR_cases.
  intros H; inversion H; subst d. split; [reflexivity|].
  simpl. destruct Hsp as [->|[k [-> Hk]]]; [left; reflexivity|].
  right. exists k. split; [reflexivity | exact Hk].
Qed.

Lemma X11_witness :
  map fst [("id", VStr "98"); ("title", VStr "Benefits"); ("type", VStr "page");
           ("space", VStr "HR")] = ["id"; "title"; "type"; "space"] /\
  (assoc "space" [("id", VStr "98"); ("title", VStr "Benefits"); ("type", VStr "page");
                  ("space", VStr "HR")] = Some VNone \/
   exists k, assoc "space" [("id", VStr "98"); ("title", VStr "Benefits"); ("type", VStr "page");
                            ("space", VStr "HR")] = Some (VStr k) /\
             substringb "/" k = false).
Proof.
  apply (X11_page_space_key
           (VDict [("id", VStr "98"); ("title", VStr "Benefits"); ("type", VStr "page");
                   ("_expandable", VDict [("space", VStr "/rest/api/space/HR")])])).
  reflexivity.
Defined.

(** ** The server loop *)

Lemma post_trace_upstream (evs : list event) :
  post_trace evs -> (length (filter is_upstream evs) <= 1)%nat.
Proof. intros H. destruct H; simpl; lia. Qed.

Lemma handle_one_request_bound
    (rt : runtime) (cfg : config) (m : http_method) (r : request) (log : list event) :
  exists resp log',
    handle_one_request rt cfg m r log = (Ok resp, log') /\
    (upstream_calls log' <= upstream_calls log + (if is_post m then 1 else 0))%nat.
Proof.
  destruct m; simpl; unfold ret.
  - do 2 eexists; split; [reflexivity | lia].
  - destruct (do_POST_trace rt cfg r log) as [evs [Hs Ht]].
    destruct (do_POST rt cfg r log) as [[resp|e] log']; simpl in Hs; subst log';
      do 2 eexists; (split; [reflexivity|]);
      unfold upstream_calls; rewrite filter_app, length_app;
      pose proof (post_trace_upstream evs Ht); lia.
  - do 2 eexists; split; [reflexivity | lia].
Qed.

(** X12: however many requests are handled, and whatever they are, the
    handler methods make at most one upstream request per POST and none for
    GET and OPTIONS: over a sequence of requests the number of upstream
    requests grows by at most the number of POSTs in it. *)
Theorem X12_upstream_bound
    (rt : runtime) (cfg : config) (reqs : list (http_method * request)) (log : list event) :
  (upstream_calls (snd (serve_forever rt cfg reqs log)) <=
   upstream_calls log + length (filter (fun mr => is_post (fst mr)) reqs))%nat.
Proof.
  revert log. induction reqs as [|[m r] reqs IH]; intros log; simpl.
  - lia.
  - unfold bind.
    destruct (handle_one_request_bound rt cfg m r log) as [resp [log1 [H1 B1]]].
    rewrite H1. specialize (IH log1).
    destruct (serve_forever rt cfg reqs log1) as [[resps|e] log2]; simpl in *;
      destruct (is_post m); simpl; lia.
Qed.

(** ** Trailing slashes *)

Lemma rstrip_slashes (n : nat) : rstrip_slash (slashes n) = "".
Proof. induction n as [|n IH]; simpl; [reflexivity | now rewrite IH]. Qed.

Lemma rstrip_app_slashes (s : string) (n : nat) :
  rstrip_slash (s ++ slashes n) = rstrip_slash s.
Proof.
  induction s as [|a s IH]; simpl.
  - apply rstrip_slashes.
  - now rewrite IH.
Qed.

Lemma rstrip_no_trailing_slash (s : string) : ends_with_slash (rstrip_slash s) = false.
Proof.
  induction s as [|a s IH]; simpl; [reflexivity|].
  destruct (rstrip_slash s) as [|b rest].
  - destruct (Ascii.eqb a "/"%char) eqn:Ha; simpl; [reflexivity | exact Ha].
  - exact IH.
Qed.

Lemma rstrip_decompose (s : string) : exists n, s = (rstrip_slash s ++ slashes n)%string.
Proof.
  induction s as [|a s [n IH]]; simpl.
  - exists 0%nat. reflexivity.
  - destruct (rstrip_slash s) as [|b rest].
    + destruct (Ascii.eqb_spec a "/"%char) as [->|Hne].
      * exists (S n). simpl in *. now rewrite IH at 1.
      * exists n. simpl in *. now rewrite IH at 1.
    + exists n. simpl in *. now rewrite IH at 1.
Qed.

(** X13: the base URL the server keeps never ends with a slash, and two
    environments whose ATLASSIAN_URL differ only in trailing slashes give the
    same configuration, hence the same upstream URLs. *)
Theorem X13_config_url (getenv : string -> option string) :
  ends_with_slash (ATLASSIAN_URL (load_config getenv)) = false /\
  forall getenv' u n,
    getenv "ATLASSIAN_URL" = Some u ->
    getenv' "ATLASSIAN_URL" = Some (u ++ slashes n)%string ->
    getenv' "ATLASSIAN_EMAIL" = getenv "ATLASSIAN_EMAIL" ->
    getenv' "ATLASSIAN_API_TOKEN" = getenv "ATLASSIAN_API_TOKEN" ->
    load_config getenv' = load_config getenv.
Proof.
  split.
  - apply rstrip_no_trailing_slash.
  - intros getenv' u n Hu Hu' He Ht. unfold load_config.
    rewrite Hu, Hu', He, Ht, rstrip_app_slashes. reflexivity.
Qed.

Lemma X13_witness :
  load_config (env_with_url "https://example.atlassian.net//") =
  load_config (env_with_url "https://example.atlassian.net").
Proof.
  apply (proj2 (X13_config_url (env_with_url "https://example.atlassian.net"))
           (env_with_url "https://example.atlassian.net//")
           "https://example.atlassian.net" 2%nat); reflexivity.
Defined.

(** X14: the server starts only with a complete configuration: when [main]
    gets as far as serving on a port, ATLASSIAN_URL holds more than slashes,
    the e-mail and the API token are set and not empty, and the port is 8000
    unless MCP_PORT is set, in which case it is that number.  With an
    incomplete configuration [main] prints its five lines and returns
    without looking at MCP_PORT. *)
Theorem X14_server_start
    (rt : runtime) (getenv : string -> option string) :
  (forall port, snd (server_main rt getenv) = Ok (Some port) ->
     (exists u, getenv "ATLASSIAN_URL" = Some u /\ rstrip_slash u <> "") /\
     (exists e, getenv "ATLASSIAN_EMAIL" = Some e /\ e <> "") /\
     (exists t, getenv "ATLASSIAN_API_TOKEN" = Some t /\ t <> "") /\
     match getenv "MCP_PORT" with
     | Some s => py_int rt s = Ok port
     | None => port = 8000
     end) /\
  (configuration_complete (load_config getenv) = false ->
     snd (server_main rt getenv) = Ok None /\ length (fst (server_main rt getenv)) = 5%nat).
Proof.
  split.
  - intros port. unfold server_main.
    destruct (configuration_complete (load_config getenv)) eqn:Hc; simpl; [|discriminate].
    unfold configuration_complete, load_config, set_and_nonempty, nonempty in Hc. simpl in Hc.
    apply andb_true_iff in Hc. destruct Hc as [Hc Ht].
    apply andb_true_iff in Hc. destruct Hc as [Hu He].
    intros Hp.
    assert (Hport : match getenv "MCP_PORT" with
                    | Some s => py_int rt s = Ok port
                    | None => port = 8000
                    end).
    { destruct (getenv "MCP_PORT") as [s|].
      - destruct (py_int rt s); simpl in Hp; inversion Hp; reflexivity.
      - simpl in Hp. inversion Hp. reflexivity. }
    split; [|split; [|split; [|exact Hport]]].
    + destruct (getenv "ATLASSIAN_URL") as [u|].
      * exists u. split; [reflexivity|]. apply negb_true_iff in Hu.
        now apply String.eqb_neq.
      * discriminate Hu.
    + destruct (getenv "ATLASSIAN_EMAIL") as [e|]; [|discriminate He].
      exists e. split; [reflexivity|]. apply negb_true_iff in He. now apply String.eqb_neq.
    + destruct (getenv "ATLASSIAN_API_TOKEN") as [t|]; [|discriminate Ht].
      exists t. split; [reflexivity|]. apply negb_true_iff in Ht. now apply String.eqb_neq.
  - intros Hc. unfold server_main. rewrite Hc. split; reflexivity.
Qed.

Lemma X14_witness :
  snd (server_main (fixed_runtime (Ok VNone) (Failed "unreachable")) (env_with_url "///")) =
    Ok None /\
  length (fst (server_main (fixed_runtime (Ok VNone) (Failed "unreachable"))
                 (env_with_url "///"))) = 5%nat.
Proof.
  apply (proj2 (X14_server_start (fixed_runtime (Ok VNone) (Failed "unreachable"))
                  (env_with_url "///"))).
  reflexivity.
Defined.

(** ** Every method *)

(** X22: every response the server writes, to a GET, a POST or an OPTIONS
    request, carries the header Access-Control-Allow-Origin: *; it has a
    body unless the request is OPTIONS; and its status is 200 or 404 for GET
    and 200 for OPTIONS. *)
Theorem X22_cors_everywhere
    (rt : runtime) (cfg : config) (m : http_method) (r : request) (log : list event)
    (resp : http_response) :
  fst (handle_one_request rt cfg m r log) = Ok (Some resp) ->
  In ("Access-Control-Allow-Origin", "*") (headers resp) /\
  (body resp = None <-> m = OPTIONS) /\
  match m with
  | GET => status resp = 200 \/ status resp = 404
  | OPTIONS => status resp = 200
  | POST => status resp = 200 \/ status resp = 400 \/ status resp = 404 \/ status resp = 500
  end.
Proof.
  destruct m; simpl.
  - unfold do_GET, ret. destruct (urlparse_path rt (req_path r)) as [p|e]; simpl;
      intros H; inversion H; subst resp; clear H.
    destruct (String.eqb p "/health"); [|destruct (String.eqb p "/mcp/v1/tools")];
      simpl; (split; [tauto|]); (split; [split; discriminate|]); tauto.
  - destruct (do_POST rt cfg r log) as [[resp'|e] log'] eqn:Hd; simpl;
      intros H; inversion H; subst resp'.
    assert (Hf : fst (do_POST rt cfg r log) = Ok resp) by (rewrite Hd; reflexivity).
    destruct (do_POST_response rt cfg r log resp Hf) as [Hh [d [Hb He]]].
    rewrite Hh, Hb. split; [simpl; tauto|]. split; [split; discriminate|].
    unfold envelope_for in He. tauto.
  - intros H. inversion H; subst resp; clear H. simpl.
    split; [tauto|]. split; [tauto | reflexivity].
Qed.

Lemma X22_witness :
  In ("Access-Control-Allow-Origin", "*")
     (headers (do_OPTIONS (request_with_body "/mcp/v1/invoke" ""))) /\
  (body (do_OPTIONS (request_with_body "/mcp/v1/invoke" "")) = None <-> OPTIONS = OPTIONS) /\
  status (do_OPTIONS (request_with_body "/mcp/v1/invoke" "")) = 200.
Proof.
  apply (X22_cors_everywhere (fixed_runtime (Ok VNone) (Failed "unreachable")) demo_config
           OPTIONS (request_with_body "/mcp/v1/invoke" "") []).
  reflexivity.
Defined.

(** ** Null entries in upstream documents *)

(** X23: an issue whose "priority" is null makes jira_get_issue's
    normalisation raise AttributeError, because the default of
    [.get("priority", {})] only replaces a missing entry; a null "assignee"
    is tolerated and gives the assignee None. *)
Theorem X23_null_priority (d f : pydict) :
  has_key "key" d = true ->
  assoc "fields" d = Some (VDict f) ->
  has_key "summary" f = true ->
  named "status" f = true ->
  named "issuetype" f = true ->
  (assoc "priority" f = Some VNone ->
   issue_entry (VDict d) = Raise (AttributeError "NoneType" "get")) /\
  (optional_object "priority" f = true ->
   assoc "assignee" f = Some VNone ->
   has_key "created" f = true -> has_key "updated" f = true ->
   exists e, issue_entry (VDict d) = Ok (VDict e) /\ assoc "assignee" e = Some VNone).
Proof.
  intros Hk Hf Hs Hst Hty. unfold issue_entry.
  unfold has_key, named in *. expose Hk.
  rewrite Hf. cbn [bindR].
  shape_cases Hk. shape_cases Hs. shape_cases Hst. shape_cases Hty.
  unfold has_key in Hst, Hty. shape_cases Hst. shape_cases Hty.
  split.
  - intros Hp. rewrite Hp. reflexivity.
  - unfold optional_object. intros Hp Ha Hc Hu. rewrite Ha.
    shape_cases Hp; shape_cases Hc; shape_cases Hu; simpl;
      eexists; split; reflexivity.
Qed.

Lemma X23_witness :
  issue_entry (VDict issue_without_priority) = Raise (AttributeError "NoneType" "get").
Proof.
  apply (proj1 (X23_null_priority issue_without_priority
                  [("summary", VStr "First");
                   ("status", VDict [("name", VStr "Open")]);
                   ("issuetype", VDict [("name", VStr "Bug")]);
                   ("priority", VNone)]
                  eq_refl eq_refl eq_refl eq_refl eq_refl)).
  reflexivity.
Defined.

(** X24: in the same way a page whose "space", "version" or "body" is null
    makes confluence_get_page's normalisation raise AttributeError, while a
    page without these entries is normalised with space None, version None
    and an empty body. *)
Theorem X24_null_page_entries (p : pydict) :
  has_key "id" p = true ->
  has_key "title" p = true ->
  ((assoc "space" p = Some VNone \/
    (optional_object "space" p = true /\ assoc "version" p = Some VNone) \/
    (optional_object "space" p = true /\ optional_object "version" p = true /\
     assoc "body" p = Some VNone)) ->
   page_content (VDict p) = Raise (AttributeError "NoneType" "get")) /\
  (assoc "space" p = None -> assoc "version" p = None -> assoc "body" p = None ->
   exists i t,
     page_content (VDict p) =
       Ok (VDict [("id", i); ("title", t); ("space", VNone); ("version", VNone);
                  ("body", VStr "")])).
Proof.
  intros Hi Ht. unfold page_content. unfold has_key, optional_object in *. expose Hi.
  shape_cases Hi. shape_cases Ht. split.
  - intros [Hs | [[Hs Hv] | [Hs [Hv Hb]]]].
    + rewrite Hs. reflexivity.
    + rewrite Hv. shape_cases Hs; reflexivity.
    + rewrite Hb. shape_cases Hs; shape_cases Hv; reflexivity.
  - intros Hs Hv Hb. rewrite Hs, Hv, Hb. simpl. do 2 eexists; reflexivity.
Qed.

Lemma X24_witness :
  page_content (VDict [("id", VStr "98"); ("title", VStr "Benefits"); ("space", VNone)]) =
    Raise (AttributeError "NoneType" "get").
Proof.
  apply (proj1 (X24_null_page_entries
                  [("id", VStr "98"); ("title", VStr "Benefits"); ("space", VNone)]
                  eq_refl eq_refl)).
  left. reflexivity.
Defined.

(** * Further properties of the client *)

(** X15: a client keeps its server URL without trailing slashes: the stored
    URL never ends with a slash, it is the given URL up to a run of slashes
    at the end, and URLs that differ only in trailing slashes give the same
    client, hence the same request URLs. *)
Theorem X15_client_url (u : string) (n : nat) :
  ends_with_slash (server_url (new_client u)) = false /\
  (exists k, u = (server_url (new_client u) ++ slashes k)%string) /\
  new_client (u ++ slashes n) = new_client u.
Proof.
  unfold new_client; simpl. split; [apply rstrip_no_trailing_slash|].
  split; [apply rstrip_decompose|]. now rewrite rstrip_app_slashes.
Qed.


(** X16: the health check answers True exactly when the GET of /health
    came back with status 200 and False for every other status and for every
    RequestException (connection refused, timeout).  It is not total: an
    exception of another class that leaves the GET, such as the ValueError
    raised for a server URL whose host cannot be parsed, is not caught and
    leaves [health_check]. *)
Theorem X16_health_check
    (requests_call : http_request -> transport) (c : MCPClient) :
  (forall r, requests_call (health_request c) = Responded r ->
     health_check requests_call c = Ok (status_code r =? 200)) /\
  (forall msg, requests_call (health_request c) = Failed msg ->
     health_check requests_call c = Ok false) /\
  (forall e, requests_call (health_request c) = Escaped e ->
     health_check requests_call c = if is_RequestException e then Ok false else Raise e).
Proof.
  unfold health_check, call, except_RequestException.
  change {| rq_method := "GET"; rq_url := server_url c ++ "/health"; rq_headers := [];
            rq_auth := None; rq_json := None; rq_timeout := Some 5 |}
    with (health_request c).
  split; [|split].
  - intros r H. rewrite H. reflexivity.
  - intros msg H. rewrite H. reflexivity.
  - intros e H. rewrite H. simpl. destruct (is_RequestException e); reflexivity.
Qed.

Lemma X16_witness :
  health_check (fun _ => Escaped (ValueError "Failed to parse: 'a..b', label empty or too long"))
               (new_client "http://a..b") =
    Raise (ValueError "Failed to parse: 'a..b', label empty or too long").
Proof.
  apply (proj2 (proj2 (X16_health_check
                         (fun _ => Escaped (ValueError "Failed to parse: 'a..b', label empty or too long"))
                         (new_client "http://a..b")))
           (ValueError "Failed to parse: 'a..b', label empty or too long")).
  reflexivity.
Defined.





(** * The demo functions *)

Lemma app_cons_nonempty (a b : string) (c : ascii) :
  String.eqb (a ++ String c b) "" = false.
Proof. destruct a; reflexivity. Qed.

Lemma http_error_message_nonempty (r : response) :
  truthy (VStr (http_error_message r)) = true.
Proof.
  unfold http_error_message, truthy.
  destruct (status_code r <? 500); simpl; now rewrite app_cons_nonempty.
Qed.

Section Demos.
Variable rt : runtime.
Variable requests_call : http_request -> transport.

(** An envelope with a message as error is printed as that error. *)
Lemma print_listing_error (msg key nothing : string) (line : value -> res string) :
  msg <> "" ->
  print_listing rt (VDict [("error", VStr msg); ("result", VNone)]) key nothing line =
    (["   Error: " ++ msg], Ok tt).
Proof.
  intros H. unfold print_listing. simpl. apply String.eqb_neq in H. rewrite H. reflexivity.
Qed.

(** An envelope without error whose result has no entry [key] is printed as
    an empty listing. *)
Lemma print_listing_nothing
    (env inner : pydict) (key nothing : string) (line : value -> res string) :
  absent_or_empty "error" env = true ->
  assoc "result" env = Some (VDict inner) ->
  assoc key inner = None ->
  print_listing rt (VDict env) key nothing line = ([nothing], Ok tt).
Proof.
  intros He Hr Hk. unfold print_listing.
  destruct (py_get_absent_or_empty "error" env He) as [v [Hg Hv]].
  rewrite Hg, Hv. simpl. rewrite Hr. simpl. rewrite Hk. reflexivity.
Qed.

End Demos.

(** X19: the listing demos show a connector's error as an empty listing.
    When the server answers 200 with an envelope whose error is null and
    whose result is a mapping without "projects" (without "spaces"), as it
    does when the connector reports an upstream error, the demo prints its
    header and "No projects found" ("No spaces found"), and no error line. *)
Theorem X19_demo_hides_connector_error
    (rt : runtime) (requests_call : http_request -> transport) (c : MCPClient)
    (r : response) (env inner : pydict) :
  error_status (status_code r) = false ->
  resp_json r = JsonBody (VDict env) ->
  absent_or_empty "error" env = true ->
  assoc "result" env = Some (VDict inner) ->
  (requests_call (invoke_request c (VStr "jira_get_projects") VNone) = Responded r ->
   assoc "projects" inner = None ->
   demo_jira_projects rt requests_call c =
     ([nl ++ "--- Jira Projects ---"; "   No projects found"], Ok tt)) /\
  (requests_call (invoke_request c (VStr "confluence_get_spaces") VNone) = Responded r ->
   assoc "spaces" inner = None ->
   demo_confluence_spaces rt requests_call c =
     ([nl ++ "--- Confluence Spaces ---"; "   No spaces found"], Ok tt)).
Proof.
  intros Hs Hj He Hr. split; intros Hc Hk.
  - unfold demo_jira_projects.
    rewrite (invoke_by_status rt requests_call c _ _ r Hc), Hs, Hj.
    rewrite (print_listing_nothing rt env inner _ _ _ He Hr Hk). reflexivity.
  - unfold demo_confluence_spaces.
    rewrite (invoke_by_status rt requests_call c _ _ r Hc), Hs, Hj.
    rewrite (print_listing_nothing rt env inner _ _ _ He Hr Hk). reflexivity.
Qed.

Lemma X19_witness :
  demo_jira_projects (fixed_runtime (Ok VNone) (Failed "unreachable"))
    (fun _ => Responded wrapped_upstream_error) (new_client "http://localhost:8000") =
    ([nl ++ "--- Jira Projects ---"; "   No projects found"], Ok tt).
Proof.
  apply (proj1 (X19_demo_hides_connector_error
                  (fixed_runtime (Ok VNone) (Failed "unreachable"))
                  (fun _ => Responded wrapped_upstream_error)
                  (new_client "http://localhost:8000") wrapped_upstream_error
                  [("result", VDict [("error", VStr "Unauthorized"); ("status_code", VInt 401)]);
                   ("error", VNone)]
                  [("error", VStr "Unauthorized"); ("status_code", VInt 401)]
                  eq_refl eq_refl eq_refl eq_refl)); reflexivity.
Defined.

(** X20: when the POST of a listing demo fails, the demo prints its header
    and one line "Error: <message>" and returns: with the HTTP error text for
    an error status, with the transport's message for a transport failure.
    A transport exception whose message is empty is not seen as an error:
    the demo then reads the null result and raises AttributeError. *)
Theorem X20_demo_prints_failure
    (rt : runtime) (requests_call : http_request -> transport) (c : MCPClient) :
  (forall r, requests_call (invoke_request c (VStr "jira_get_projects") VNone) = Responded r ->
     error_status (status_code r) = true ->
     demo_jira_projects rt requests_call c =
       ([nl ++ "--- Jira Projects ---"; "   Error: " ++ http_error_message r], Ok tt)) /\
  (forall msg, requests_call (invoke_request c (VStr "jira_get_projects") VNone) = Failed msg ->
     demo_jira_projects rt requests_call c =
       if String.eqb msg ""
       then ([nl ++ "--- Jira Projects ---"], Raise (AttributeError "NoneType" "get"))
       else ([nl ++ "--- Jira Projects ---"; "   Error: " ++ msg], Ok tt)).
Proof.
  split.
  - intros r Hc Hs. unfold demo_jira_projects.
    rewrite (invoke_by_status rt requests_call c _ _ r Hc), Hs.
    rewrite print_listing_error; [reflexivity|].
    intros E. pose proof (http_error_message_nonempty r) as H. rewrite E in H. discriminate H.
  - intros msg Hc. unfold demo_jira_projects, invoke, call, except_RequestException.
    rewrite Hc. simpl.
    destruct (String.eqb_spec msg "") as [->|Hne].
    + reflexivity.
    + rewrite print_listing_error by exact Hne. reflexivity.
Qed.

Lemma X20_witness :
  demo_jira_projects (fixed_runtime (Ok VNone) (Failed "unreachable"))
    (fun _ => Failed "Connection refused") (new_client "http://localhost:8000") =
    ([nl ++ "--- Jira Projects ---"; "   Error: Connection refused"], Ok tt).
Proof.
  apply (proj2 (X20_demo_prints_failure (fixed_runtime (Ok VNone) (Failed "unreachable"))
                  (fun _ => Failed "Connection refused") (new_client "http://localhost:8000"))
           "Connection refused").
  reflexivity.
Defined.

Section ToolListing.
Variable rt : runtime.

Lemma for_each_tool_lines (tools : list value) :
  forallb isinstance_dict tools = true ->
  exists lines,
    for_each (tool_lines rt) tools = (lines, Ok tt) /\
    length lines = (2 * length tools)%nat.
Proof.
  induction tools as [|t tools IH]; intros H.
  - exists []. split; reflexivity.
  - simpl in H. apply andb_true_iff in H. destruct H as [Ht Hts].
    destruct (IH Hts) as [lines [Hl Hn]].
    destruct t; try discriminate Ht.
    cbn [for_each]. rewrite Hl. unfold tool_lines. cbn [py_get bindR].
    eexists. split; [reflexivity|]. simpl. lia.
Qed.

End ToolListing.

(** X21: the tool-listing demo.  When the GET fails in transport or has an
    error status, it prints its header, the line "Error listing tools: ..."
    and "No tools found (is the server running?)", and returns the empty
    list.  When the server answers with a non-empty list of tool objects, it
    prints the header and two lines per tool and returns the list as
    received. *)
Theorem X21_demo_list_tools
    (rt : runtime) (requests_call : http_request -> transport) (c : MCPClient) :
  (transport_failure (requests_call (tools_request c)) = true ->
   exists msg,
     demo_list_tools rt requests_call c =
       ([nl ++ "--- Available MCP Tools ---"; "Error listing tools: " ++ msg;
         "   No tools found (is the server running?)"], Ok (VList []))) /\
  (forall r d t tools,
     requests_call (tools_request c) = Responded r ->
     error_status (status_code r) = false ->
     resp_json r = JsonBody (VDict d) ->
     assoc "tools" d = Some (VList (t :: tools)) ->
     forallb isinstance_dict (t :: tools) = true ->
     exists lines,
       demo_list_tools rt requests_call c =
         ((nl ++ "--- Available MCP Tools ---") :: lines, Ok (VList (t :: tools))) /\
       length lines = (2 * length (t :: tools))%nat).
Proof.
  unfold demo_list_tools, list_tools_printed, call.
  change {| rq_method := "GET"; rq_url := server_url c ++ "/mcp/v1/tools"; rq_headers := [];
            rq_auth := None; rq_json := None; rq_timeout := None |}
    with (tools_request c).
  split.
  - unfold transport_failure.
    destruct (requests_call (tools_request c)) as [r|msg|e]; simpl.
    + intros H. rewrite (raise_for_status_error r H). simpl. eexists; reflexivity.
    + intros _. eexists; reflexivity.
    + intros H. rewrite H. eexists; reflexivity.
  - intros r d t tools Hc Hs Hj Ht Hall. rewrite Hc. cbn [bindR].
    rewrite (raise_for_status_ok r Hs). cbn [bindR]. unfold response_json. rewrite Hj.
    cbn [bindR py_get]. rewrite Ht. cbn [truthy negb py_iter].
    destruct (for_each_tool_lines rt (t :: tools) Hall) as [lines [Hl Hn]].
    rewrite Hl. exists lines. split; [reflexivity | exact Hn].
Qed.

Lemma X21_witness :
  exists msg,
    demo_list_tools (fixed_runtime (Ok VNone) (Failed "unreachable"))
      (fun _ => Failed "Connection refused") (new_client "http://localhost:8000") =
      ([nl ++ "--- Available MCP Tools ---"; "Error listing tools: " ++ msg;
        "   No tools found (is the server running?)"], Ok (VList [])).
Proof.
  apply (proj1 (X21_demo_list_tools (fixed_runtime (Ok VNone) (Failed "unreachable"))
                  (fun _ => Failed "Connection refused") (new_client "http://localhost:8000"))).
  reflexivity.
Defined.
